(** * Sticky notes: a shallow embedding of [main.py]

    The program is a PyQt6 desktop utility. Every note is a frameless
    window ([StickyNote]); the class attribute [StickyNote.notes] lists
    the open notes; [StickyNotesApp.save_notes] rewrites the JSON file
    [sticky_notes.json] from that list and [StickyNotesApp.load_notes]
    rebuilds the windows from it.

    The embedding threads one [World] (the list of open notes, the
    content of the file, the clipboard) through a state-and-exception
    monad: a Python exception leaves the side effects made so far in
    place, so a raising computation still returns the world it reached.

    What comes from the libraries and not from [main.py] is modelled
    at the boundary and marked as such:
    - the [json] module: the values [json.load] returns, and
      [json.load] after [json.dump] as the identity on them;
    - the parts of [QWidget] the program calls: [move] and [resize]
      (which keeps the size between the minimum and the maximum size
      of the widget), [x], [y], [width], [height], the initial
      geometry (0, 0, 640, 480) of a top-level widget, and [show],
      after which an unmoved window is where the window system placed
      it ([placement]);
    - the truth value of [QPoint] (false at (0, 0)) and of [QSize]
      (false when a side is negative);
    - the conversion of a Python [int] to a C [int], which raises
      [OverflowError] out of range;
    - the coordinates of a mouse event, doubles in Qt, as the
      rationals they denote: comparisons are those of the doubles,
      and so are sums and differences of whole numbers; the theorems
      that give the value of a move or of a resize are stated for a
      cursor at whole pixels ([at_pixel]), where nothing is rounded;
    - the text of the editor as the string it was given, which is
      what [QTextEdit] returns for printable characters and line
      feeds ([kept_text]); its replacing of carriage returns, Unicode
      line and paragraph separators and no-break spaces is left out.
    Styling, the tray message and failures of the file system are left
    out; of the cursor shape, the value [enterEvent] and [leaveEvent]
    pass to [setCursor] is kept. *)

From Stdlib Require Import ZArith QArith List String Bool Lia Sorted.
Import ListNotations.

#[local] Close Scope Q_scope.
#[local] Open Scope string_scope.
#[local] Open Scope list_scope.
#[local] Open Scope Z_scope.

(** ** Python values, exceptions *)

#[local] Set Warnings "-register-all".

(** The values [json.load] can return. A dict is an association list
    in insertion order; a lookup takes the first binding of the key. *)
Inductive value : Type :=
| VNone
| VBool (b : bool)
| VInt (z : Z)
| VFloat (q : Q)
| VStr (s : string)
| VList (l : list value)
| VDict (d : list (string * value)).

Inductive exn : Type :=
| JSONDecodeError
| KeyError (k : string)
| TypeError
| OverflowError
| ValueError
| AttributeError.

Inductive result (A : Type) : Type :=
| Ok (a : A)
| Raise (e : exn).
Arguments Ok {A} a.
Arguments Raise {A} e.

(** Python's truth value: [if initial_text:], [if pos:], [if size:]. *)
Definition truthy (v : value) : bool :=
  match v with
  | VNone => false
  | VBool b => b
  | VInt z => negb (z =? 0)
  | VFloat q => negb (Qeq_bool q 0)
  | VStr s => negb (String.eqb s "")
  | VList l => match l with [] => false | _ :: _ => true end
  | VDict d => match d with [] => false | _ :: _ => true end
  end.

Fixpoint dict_get (d : list (string * value)) (k : string) : option value :=
  match d with
  | [] => None
  | (k', v) :: r => if String.eqb k' k then Some v else dict_get r k
  end.

(** [obj[k]] with a string key: [KeyError] on a dict without the key,
    [TypeError] on everything that is not a dict. *)
Definition subscript (obj : value) (k : string) : result value :=
  match obj with
  | VDict d => match dict_get d k with Some v => Ok v | None => Raise (KeyError k) end
  | _ => Raise TypeError
  end.

Fixpoint chars (s : string) : list value :=
  match s with
  | EmptyString => []
  | String c r => VStr (String c EmptyString) :: chars r
  end.

(** [for note_data in notes_data]: the elements of a list, the keys of
    a dict, the characters of a string; the rest is not iterable. *)
Definition py_iter (v : value) : result (list value) :=
  match v with
  | VList l => Ok l
  | VDict d => Ok (map (fun kv => VStr (fst kv)) d)
  | VStr s => Ok (chars s)
  | _ => Raise TypeError
  end.

(** ** The persistence file *)

(** The content of [NOTES_FILE]: either text that [json.load] rejects,
    or the serialisation of a value ([json.load] after [json.dump] is
    the identity on the values above). *)
Inductive FileContent : Type :=
| Malformed
| Document (v : value).

Definition json_load (f : FileContent) : result value :=
  match f with
  | Malformed => Raise JSONDecodeError
  | Document v => Ok v
  end.

Definition json_dump (v : value) : FileContent := Document v.

(** ** Qt geometry at the binding's boundary *)

Definition INT_MIN : Z := -2147483648.
Definition INT_MAX : Z := 2147483647.
Definition QWIDGETSIZE_MAX : Z := 16777215.

Definition in_int (z : Z) : bool := (INT_MIN <=? z) && (z <=? INT_MAX).

Record QPoint : Type := mkQPoint { px : Z; py : Z }.
Record QSize : Type := mkQSize { sw : Z; sh : Z }.

(** A Python argument for a C [int] parameter: an [int] (or [bool])
    in range; [TypeError] for any other type, [OverflowError] out of
    range. *)
Definition as_int (v : value) : result Z :=
  match v with
  | VInt z => if in_int z then Ok z else Raise OverflowError
  | VBool b => Ok (if b then 1 else 0)
  | _ => Raise TypeError
  end.

Definition is_intlike (v : value) : bool :=
  match v with VInt _ | VBool _ => true | _ => false end.

Definition QPoint_new (a b : value) : result QPoint :=
  if is_intlike a && is_intlike b then
    match as_int a, as_int b with
    | Ok xa, Ok xb => Ok (mkQPoint xa xb)
    | _, _ => Raise OverflowError
    end
  else Raise TypeError.

Definition QSize_new (a b : value) : result QSize :=
  if is_intlike a && is_intlike b then
    match as_int a, as_int b with
    | Ok xa, Ok xb => Ok (mkQSize xa xb)
    | _, _ => Raise OverflowError
    end
  else Raise TypeError.

(** [QPoint.__bool__] is [not isNull()]; [QSize.__bool__] is
    [isValid()]. *)
Definition QPoint_bool (p : QPoint) : bool := negb ((px p =? 0) && (py p =? 0)).
Definition QSize_bool (s : QSize) : bool := (0 <=? sw s) && (0 <=? sh s).

(** ** Mouse events *)

Inductive MouseButton : Type := LeftButton | RightButton | MiddleButton | OtherButton.

Record KeyboardModifiers : Type := mkMods {
  ShiftModifier : bool;
  ControlModifier : bool;
  AltModifier : bool;
  MetaModifier : bool
}.

(** [event.position()] is a [QPointF]; its coordinates are taken as
    exact rationals. *)
Record QMouseEvent : Type := mkMouse {
  button : MouseButton;
  modifiers : KeyboardModifiers;
  position : Q * Q
}.

(** The two cursor shapes the program sets. *)
Inductive CursorShape : Type := ArrowCursor | SizeFDiagCursor.

Definition is_LeftButton (b : MouseButton) : bool :=
  match b with LeftButton => true | _ => false end.

(** [event.modifiers() == Qt.KeyboardModifier.ControlModifier]: the
    flag set is exactly Control. *)
Definition is_ControlModifier (m : KeyboardModifiers) : bool :=
  ControlModifier m && negb (ShiftModifier m) && negb (AltModifier m) && negb (MetaModifier m).

(** [a > b] on numbers. *)
Definition Qgtb (a b : Q) : bool := negb (Qle_bool a b).

(** Python's [int(q)] truncates towards zero. *)
Definition py_int (q : Q) : Z := Z.quot (Qnum q) (Z.pos (Qden q)).

(** Python's [max(a, b)]: [b] when [b > a], else [a]. *)
Definition py_max (a b : Q) : Q := if Qgtb b a then b else a.

(** ** Notes and the world *)

(** A [StickyNote] window: its identity, the plain text of its editor,
    its geometry as [x()], [y()], [width()], [height()] report it, and
    the four gesture attributes. *)
Record StickyNote : Type := mkNote {
  nid : nat;
  text : string;
  x : Z;
  y : Z;
  width : Z;
  height : Z;
  _dragging : bool;
  _resizing : bool;
  _start_pos : option (Q * Q);
  _start_size : option (Z * Z)
}.

(** [setMinimumSize(100, 100)] and [resize_margin = 25] are set once in
    [__init__] and never changed. *)
Definition minimumWidth (n : StickyNote) : Z := 100.
Definition minimumHeight (n : StickyNote) : Z := 100.
Definition resize_margin (n : StickyNote) : Z := 25.

Definition set_text (s : string) (n : StickyNote) : StickyNote :=
  mkNote (nid n) s (x n) (y n) (width n) (height n)
         (_dragging n) (_resizing n) (_start_pos n) (_start_size n).

Definition set_pos (ax ay : Z) (n : StickyNote) : StickyNote :=
  mkNote (nid n) (text n) ax ay (width n) (height n)
         (_dragging n) (_resizing n) (_start_pos n) (_start_size n).

Definition set_size (aw ah : Z) (n : StickyNote) : StickyNote :=
  mkNote (nid n) (text n) (x n) (y n) aw ah
         (_dragging n) (_resizing n) (_start_pos n) (_start_size n).

Definition set_gesture (d r : bool) (p : option (Q * Q)) (s : option (Z * Z))
                       (n : StickyNote) : StickyNote :=
  mkNote (nid n) (text n) (x n) (y n) (width n) (height n) d r p s.

(** The world: [notes] is the class attribute [StickyNote.notes];
    [next_id] names the next object; [store] is the content of
    [NOTES_FILE] ([None]: the file does not exist); [sticky_notes_app]
    says whether [QApplication.instance()] has that attribute;
    [placement i] is where the window system puts window [i] when it
    is shown without having been moved. *)
Record World : Type := mkWorld {
  notes : list StickyNote;
  next_id : nat;
  store : option FileContent;
  sticky_notes_app : bool;
  clipboard : string;
  placement : nat -> Z * Z
}.

Definition set_notes (l : list StickyNote) (w : World) : World :=
  mkWorld l (next_id w) (store w) (sticky_notes_app w) (clipboard w) (placement w).

Definition set_store (f : option FileContent) (w : World) : World :=
  mkWorld (notes w) (next_id w) f (sticky_notes_app w) (clipboard w) (placement w).

Definition set_clipboard (s : string) (w : World) : World :=
  mkWorld (notes w) (next_id w) (store w) (sticky_notes_app w) s (placement w).

Definition set_app (b : bool) (w : World) : World :=
  mkWorld (notes w) (next_id w) (store w) b (clipboard w) (placement w).

(** ** The monad *)

Definition M (A : Type) : Type := World -> result A * World.

Definition ret {A} (a : A) : M A := fun w => (Ok a, w).

Definition bind {A B} (c : M A) (k : A -> M B) : M B :=
  fun w => match c w with
           | (Ok a, w') => k a w'
           | (Raise e, w') => (Raise e, w')
           end.

Definition raise {A} (e : exn) : M A := fun w => (Raise e, w).
Definition get : M World := fun w => (Ok w, w).
Definition modify (f : World -> World) : M unit := fun w => (Ok tt, f w).

Definition lift {A} (r : result A) : M A :=
  match r with Ok a => ret a | Raise e => raise e end.

Declare Scope monad_scope.
Delimit Scope monad_scope with monad.
Notation "v <- c ;; k" := (bind c (fun v => k))
  (at level 61, c at next level, right associativity) : monad_scope.
Notation "c ;; k" := (bind c (fun _ => k))
  (at level 61, right associativity) : monad_scope.
#[local] Open Scope monad_scope.

Fixpoint for_each {A} (l : list A) (body : A -> M unit) : M unit :=
  match l with
  | [] => ret tt
  | a :: r => body a ;; for_each r body
  end.

(** The world a computation ends in, and whether it returned. *)
Definition exec {A} (c : M A) (w : World) : World := snd (c w).
Definition raises {A} (c : M A) (w : World) : Prop := exists e, fst (c w) = @Raise A e.

(** ** [QWidget] operations, on the note with identity [self] *)

Definition find_note (self : nat) (l : list StickyNote) : option StickyNote :=
  find (fun n => Nat.eqb (nid n) self) l.

Definition update_note (self : nat) (f : StickyNote -> StickyNote)
                       (l : list StickyNote) : list StickyNote :=
  map (fun n => if Nat.eqb (nid n) self then f n else n) l.

Definition modify_note (self : nat) (f : StickyNote -> StickyNote) : M unit :=
  modify (fun w => set_notes (update_note self f (notes w)) w).

(** A method body that reads [self]. A window that is not open
    receives no event. *)
Definition on (self : nat) (body : StickyNote -> M unit) : M unit :=
  fun w => match find_note self (notes w) with
           | Some n => body n w
           | None => (Ok tt, w)
           end.

(** [QWidget.move(x, y)]. *)
Definition QWidget_move (self : nat) (ax ay : Z) : M unit :=
  if in_int ax && in_int ay then modify_note self (set_pos ax ay)
  else raise OverflowError.

(** Qt keeps a size between the minimum and the maximum size of the
    widget. *)
Definition bounded (lo v : Z) : Z := Z.max (Z.min v QWIDGETSIZE_MAX) lo.

(** [QWidget.resize(w, h)]. *)
Definition QWidget_resize (self : nat) (aw ah : Z) : M unit :=
  if in_int aw && in_int ah then
    modify_note self (fun n => set_size (bounded (minimumWidth n) aw)
                                        (bounded (minimumHeight n) ah) n)
  else raise OverflowError.

(** [QWidget.show()]: the window appears where the window system
    places it (no caller moves a note before showing it). *)
Definition QWidget_show (self : nat) : M unit :=
  w <- get ;;
  modify_note self (set_pos (fst (placement w self)) (snd (placement w self))).

(** ** [StickyNotesApp.save_notes] *)

(** The dict appended for one note (lines 88-94). *)
Definition note_record (n : StickyNote) : value :=
  VDict [ ("text", VStr (text n));
          ("x", VInt (x n));
          ("y", VInt (y n));
          ("width", VInt (width n));
          ("height", VInt (height n)) ].

Definition save_notes : M unit :=
  w <- get ;;
  let notes_data := map note_record (notes w) in
  modify (set_store (Some (json_dump (VList notes_data)))).

(** ** [StickyNote] *)

Definition on_text_changed : M unit :=
  w <- get ;;
  if sticky_notes_app w then save_notes else ret tt.

(** The editor's text becomes [s] and [textChanged] fires: the user
    typing, or [setPlainText]. *)
Definition text_changed (self : nat) (s : string) : M unit :=
  modify_note self (set_text s) ;;
  on_text_changed.

(** [self.text.setPlainText(v)]: a [str] is required. The text of the
    editor becomes the string as given. That is what [toPlainText]
    returns afterwards for a string of printable characters and line
    feeds ([kept_text] below); a carriage return, a Unicode line or
    paragraph separator or a no-break space comes back as a line feed
    or a space, which this model leaves out. *)
Definition setPlainText (self : nat) (v : value) : M unit :=
  match v with
  | VStr s => text_changed self s
  | _ => raise TypeError
  end.

(** The window as [QMainWindow.__init__] leaves it: Qt's initial
    geometry of a top-level widget, an empty editor. *)
Definition new_window (i : nat) : StickyNote :=
  mkNote i "" 0 0 640 480 false false None None.

(** The object is allocated and [StickyNote.notes.append(self)] runs. *)
Definition appended (w : World) : World :=
  mkWorld (notes w ++ [new_window (next_id w)]) (S (next_id w)) (store w)
          (sticky_notes_app w) (clipboard w) (placement w).

(** [StickyNote.__init__(initial_text)]; returns the new object. *)
Definition StickyNote_init (initial_text : value) : M nat :=
  w <- get ;;
  let self := next_id w in
  modify appended ;;
  (if truthy initial_text then setPlainText self initial_text else ret tt) ;;
  QWidget_resize self 200 200 ;;
  modify_note self (set_gesture false false None None) ;;
  QWidget_show self ;;
  ret self.

(** The transient restyling is not modelled. *)
Definition copy_with_feedback (self : nat) : M unit :=
  on self (fun n => modify (set_clipboard (text n))).

(** [cls.notes[-2]]. *)
Definition second_last (l : list StickyNote) : option StickyNote :=
  nth_error l (List.length l - 2).

Definition create_new_note : M unit :=
  note <- StickyNote_init (VStr "") ;;
  w <- get ;;
  if (1 <? List.length (notes w))%nat then
    match second_last (notes w) with
    | Some prev => QWidget_move note (x prev + 20) (y prev + 20)
    | None => ret tt
    end
  else ret tt.

(** [list.remove]: drops the first occurrence, [None] when absent. *)
Fixpoint list_remove (self : nat) (l : list StickyNote) : option (list StickyNote) :=
  match l with
  | [] => None
  | n :: r => if Nat.eqb (nid n) self then Some r
              else option_map (cons n) (list_remove self r)
  end.

Definition delete_note (self : nat) : M unit :=
  w <- get ;;
  match list_remove self (notes w) with
  | None => raise ValueError
  | Some l =>
      modify (set_notes l) ;;
      w <- get ;;
      (if sticky_notes_app w then save_notes else ret tt)
      (* self.close(): the window is gone from the list already *)
  end.

Definition in_corner (n : StickyNote) (pos : Q * Q) : bool :=
  Qgtb (fst pos) (inject_Z (width n - resize_margin n)) &&
  Qgtb (snd pos) (inject_Z (height n - resize_margin n)) &&
  Qgtb (snd pos) (inject_Z 40).

Definition mousePressEvent (self : nat) (event : QMouseEvent) : M unit :=
  on self (fun n =>
    if is_LeftButton (button event) then
      if is_ControlModifier (modifiers event) then copy_with_feedback self
      else
        let pos := position event in
        if in_corner n pos then
          modify_note self (fun n =>
            set_gesture (_dragging n) true (Some pos) (Some (width n, height n)) n)
        else
          modify_note self (fun n =>
            set_gesture true (_resizing n) (Some pos) (_start_size n) n)
    else ret tt).

Definition is_some {A} (o : option A) : bool :=
  match o with Some _ => true | None => false end.

(** [QPointF.__sub__]. Qt subtracts doubles, the model the rationals
    they denote: the same number when both points are at whole pixels;
    at fractional coordinates the double is rounded, and [int] of it
    can be one away from [py_int] of the exact difference. *)
Definition QPointF_sub (a b : Q * Q) : Q * Q :=
  ((fst a - fst b)%Q, (snd a - snd b)%Q).

Definition mouseMoveEvent (self : nat) (event : QMouseEvent) : M unit :=
  on self (fun n =>
    if _resizing n && is_some (_start_pos n) then
      match _start_pos n, _start_size n with
      | Some start, Some ss =>
          let delta := QPointF_sub (position event) start in
          let new_width :=
            py_max (inject_Z (fst ss) + fst delta)%Q (inject_Z (minimumWidth n)) in
          let new_height :=
            py_max (inject_Z (snd ss) + snd delta)%Q (inject_Z (minimumHeight n)) in
          QWidget_resize self (py_int new_width) (py_int new_height)
      | _, _ => raise AttributeError   (* self._start_size is None *)
      end
    else if _dragging n && is_some (_start_pos n) then
      match _start_pos n with
      | Some start =>
          let delta := QPointF_sub (position event) start in
          QWidget_move self (x n + py_int (fst delta)) (y n + py_int (snd delta))
      | None => ret tt
      end
    else ret tt).

Definition mouseReleaseEvent (self : nat) (event : QMouseEvent) : M unit :=
  modify_note self (set_gesture false false None None).

(** The shape [enterEvent] passes to [setCursor], the cursor entering
    the note at [pos]. *)
Definition enterEvent (n : StickyNote) (pos : Q * Q) : CursorShape :=
  if Qgtb (fst pos) (inject_Z (width n - resize_margin n)) &&
     Qgtb (snd pos) (inject_Z (height n - resize_margin n)) &&
     Qgtb (snd pos) (inject_Z 40)
  then SizeFDiagCursor else ArrowCursor.

(** [leaveEvent] sets the arrow back. *)
Definition leaveEvent (n : StickyNote) : CursorShape := ArrowCursor.

(** ** [StickyNotesApp] *)

Definition create_note_safe (text : value) (pos : option QPoint)
                            (size : option QSize) : M unit :=
  note <- StickyNote_init text ;;
  (match pos with
   | Some p => if QPoint_bool p then QWidget_move note (px p) (py p) else ret tt
   | None => ret tt
   end) ;;
  match size with
  | Some s => if QSize_bool s then QWidget_resize note (sw s) (sh s) else ret tt
  | None => ret tt
  end.

(** The body of the loop of [load_notes]: the arguments are evaluated
    left to right, then the note is created. *)
Definition load_one (note_data : value) : M unit :=
  t <- lift (subscript note_data "text") ;;
  vx <- lift (subscript note_data "x") ;;
  vy <- lift (subscript note_data "y") ;;
  pos <- lift (QPoint_new vx vy) ;;
  vw <- lift (subscript note_data "width") ;;
  vh <- lift (subscript note_data "height") ;;
  size <- lift (QSize_new vw vh) ;;
  create_note_safe t (Some pos) (Some size).

Definition load_notes : M unit :=
  w <- get ;;
  match store w with
  | None => ret tt
  | Some f =>
      notes_data <- lift (json_load f) ;;
      items <- lift (py_iter notes_data) ;;
      for_each items load_one
  end.

Definition quit_app : M unit := save_notes.

(** [StickyNotesApp.__init__]: the attribute is set on the
    application object, then the saved notes are loaded. *)
Definition StickyNotesApp_init : M unit :=
  modify (set_app true) ;;
  load_notes.

(** A process that has just started: no note yet. *)
Definition fresh_process (f : option FileContent) (pl : nat -> Z * Z) : World :=
  mkWorld [] 0 f false "" pl.

(** ** The events of the user interface *)

Inductive Event : Type :=
| Hotkey                                   (* ctrl+n: create_note_safe() *)
| TrayNewNote                              (* triggered(checked=False) *)
| TrayQuit
| TextEdited (self : nat) (s : string)     (* textChanged of the editor *)
| ClickNew (self : nat)                    (* the "+" button *)
| ClickClose (self : nat)                  (* the close button *)
| MousePress (self : nat) (e : QMouseEvent)
| MouseMove (self : nat) (e : QMouseEvent)
| MouseRelease (self : nat) (e : QMouseEvent).

Definition dispatch (ev : Event) : M unit :=
  match ev with
  | Hotkey => create_note_safe (VStr "") None None
  | TrayNewNote => create_note_safe (VBool false) None None
  | TrayQuit => quit_app
  | TextEdited self s => on self (fun _ => text_changed self s)
  | ClickNew self => on self (fun _ => create_new_note)
  | ClickClose self => on self (fun _ => delete_note self)
  | MousePress self e => mousePressEvent self e
  | MouseMove self e => mouseMoveEvent self e
  | MouseRelease self e => mouseReleaseEvent self e
  end.

(** A run of the event loop: an exception in a handler ends it, and so
    does [app.quit()] at the end of [quit_app]. *)
Fixpoint event_loop (evs : list Event) : M unit :=
  match evs with
  | [] => ret tt
  | TrayQuit :: _ => dispatch TrayQuit
  | ev :: r => dispatch ev ;; event_loop r
  end.

Definition session (evs : list Event) : M unit :=
  StickyNotesApp_init ;; event_loop evs.

(** ** Properties of worlds and of computations *)

(** [c] keeps [P]: whether it returns or raises, the world it ends in
    satisfies [P] when the world it starts in does. *)
Definition preserves {A} (P : World -> Prop) (c : M A) : Prop :=
  forall w, P w -> P (exec c w).

(** [c] leaves the component [proj] of the world as it was. *)
Definition frames {A B} (proj : World -> B) (c : M A) : Prop :=
  forall w, proj (exec c w) = proj w.

Definition ids (w : World) : list nat := map nid (notes w).

(** Objects are numbered as they are created: the list is in creation
    order when the identities increase along it. *)
Definition creation_order (w : World) : Prop :=
  StronglySorted lt (ids w) /\ Forall (fun i => (i < next_id w)%nat) (ids w).

Definition size_floor (n : StickyNote) : Prop :=
  100 <= width n /\ 100 <= height n.

Definition floor_holds (w : World) : Prop := Forall size_floor (notes w).

(** The file holds exactly the records of the open notes. *)
Definition records (w : World) : list value := map note_record (notes w).

Definition store_in_sync (w : World) : Prop :=
  store w = Some (Document (VList (records w))).

Definition five_keys : list string := ["text"; "x"; "y"; "width"; "height"].

Definition is_record (v : value) : Prop :=
  exists d, v = VDict d /\ map fst d = five_keys.

(** A geometry Qt can report for a note and the file can give back. *)
Definition geometry_ok (n : StickyNote) : Prop :=
  in_int (x n) = true /\ in_int (y n) = true /\
  100 <= width n <= QWIDGETSIZE_MAX /\ 100 <= height n <= QWIDGETSIZE_MAX.

Definition at_origin (n : StickyNote) : bool := (x n =? 0) && (y n =? 0).

(** An attribute update that keeps the identity of the window and
    never takes its size below the floor. *)
Definition benign (f : StickyNote -> StickyNote) : Prop :=
  forall n, nid (f n) = nid n /\ (size_floor n -> size_floor (f n)).

(** While [__init__] runs, the list is the old list followed by the
    note under construction. *)
Definition under_construction (pre : list StickyNote) (self : nat) (w : World) : Prop :=
  exists n, notes w = pre ++ [n] /\ nid n = self.

Definition restored (pl : nat -> Z * Z) (self : nat) (n : StickyNote) : StickyNote :=
  mkNote self (text n)
         (if at_origin n then fst (pl self) else x n)
         (if at_origin n then snd (pl self) else y n)
         (width n) (height n) false false None None.

Fixpoint reloaded (pl : nat -> Z * Z) (self : nat) (ns : list StickyNote)
  : list StickyNote :=
  match ns with
  | [] => []
  | n :: r => restored pl self n :: reloaded pl (S self) r
  end.

(** The test of [mousePressEvent] without its third conjunct. *)
Definition near_corner (n : StickyNote) (pos : Q * Q) : bool :=
  Qgtb (fst pos) (inject_Z (width n - resize_margin n)) &&
  Qgtb (snd pos) (inject_Z (height n - resize_margin n)).

Definition is_new_note_event (ev : Event) : bool :=
  match ev with Hotkey | TrayNewNote => true | _ => false end.

(** A press entered exactly one of the two gesture states. *)
Definition enters_exactly_one (w : World) (self : nat) (e : QMouseEvent) : Prop :=
  exists n', find_note self (notes (exec (mousePressEvent self e) w)) = Some n' /\
             xorb (_dragging n') (_resizing n') = true.

(** The newest note sits 20px right of and below [n]. *)
Definition newest_offset_from (n : StickyNote) (w : World) : Prop :=
  exists pre m, notes w = pre ++ [m] /\ x m = x n + 20 /\ y m = y n + 20.

Definition shaped_or (f : option FileContent) (w : World) : Prop :=
  store w = f \/
  exists l, store w = Some (Document (VList l)) /\ Forall is_record l.

(** The text [__init__] gives the editor for an initial text [v]:
    a string as it is, any other false value leaves the editor empty,
    any other true value is refused by [setPlainText]. *)
Definition text_of (v : value) : option string :=
  match v with
  | VStr s => Some s
  | _ => if truthy v then None else Some ""
  end.

(** The note [load_notes] builds from a record with text [t], position
    [(a, b)] and size [(c, e)]. *)
Definition loaded (pl : nat -> Z * Z) (self : nat) (t : string) (a b c e : Z)
  : StickyNote :=
  mkNote self t
         (if (a =? 0) && (b =? 0) then fst (pl self) else a)
         (if (a =? 0) && (b =? 0) then snd (pl self) else b)
         (if (0 <=? c) && (0 <=? e) then bounded 100 c else 200)
         (if (0 <=? c) && (0 <=? e) then bounded 100 e else 200)
         false false None None.

Definition is_array (v : value) : bool :=
  match v with VList _ => true | _ => false end.

(** The record [save_notes] writes for a note that is still as
    [QMainWindow.__init__] left it, its text set. *)
Definition unplaced_record (t : string) : value :=
  VDict [("text", VStr t); ("x", VInt 0); ("y", VInt 0);
         ("width", VInt 640); ("height", VInt 480)].

(** The world once the records of [pre ++ [n]] have been loaded in a
    fresh process, [n] having text. *)
Definition after_loading (pl : nat -> Z * Z) (pre : list StickyNote) (n : StickyNote)
  : World :=
  mkWorld (reloaded pl 0 (pre ++ [n])) (S (List.length pre))
          (Some (Document (VList (map note_record (reloaded pl 0 pre) ++
                                  [unplaced_record (text n)]))))
          true "" pl.

Definition every_note (Q : StickyNote -> Prop) (w : World) : Prop :=
  Forall Q (notes w).

(** A resize in progress has its start size. *)
Definition gesture_ok (n : StickyNote) : Prop :=
  _resizing n = true -> _start_size n <> None.

Definition only_overflow (r : result unit) : Prop :=
  r = Ok tt \/ r = Raise OverflowError.

(** A press with the left button that is not the copy gesture. *)
Definition plain_left (e : QMouseEvent) : bool :=
  is_LeftButton (button e) && negb (is_ControlModifier (modifiers e)).

Definition idle (n : StickyNote) : Prop :=
  _dragging n = false /\ _resizing n = false.

(** The cursor of [e] is at the whole pixel [(a, b)] of the window.
    The doubles of such positions, their differences and the sums of
    these with a width or a height are whole numbers far below 2^53:
    there the arithmetic of [mouseMoveEvent] is exact, and the model
    computes what the code computes. *)
Definition at_pixel (e : QMouseEvent) (a b : Z) : Prop :=
  position e = (inject_Z a, inject_Z b) /\ in_int a = true /\ in_int b = true.

(** The characters the editor gives back as it got them: the line feed
    and the printable ASCII characters. *)
Definition kept_char (c : Ascii.ascii) : bool :=
  let k := Ascii.nat_of_ascii c in
  Nat.eqb k 10 || (Nat.leb 32 k && Nat.leb k 126).

Fixpoint kept_text (s : string) : bool :=
  match s with
  | EmptyString => true
  | String c r => kept_char c && kept_text r
  end.

(** The events whose handlers call [save_notes]. *)
Definition saves (ev : Event) : bool :=
  match ev with
  | TrayQuit | TextEdited _ _ | ClickClose _ => true
  | _ => false
  end.

(** ** Sample inputs *)

Definition no_modifiers : KeyboardModifiers := mkMods false false false false.
Definition control_only : KeyboardModifiers := mkMods false true false false.

Definition left_at (ax ay : Z) : QMouseEvent :=
  mkMouse LeftButton no_modifiers (inject_Z ax, inject_Z ay).

Definition right_at (ax ay : Z) : QMouseEvent :=
  mkMouse RightButton no_modifiers (inject_Z ax, inject_Z ay).

(** A window system that cascades new windows. *)
Definition cascade (i : nat) : Z * Z := (26 * Z.of_nat (S i), 26 * Z.of_nat (S i)).

Definition memo : StickyNote :=
  mkNote 0 "memo" 300 300 200 200 false false None None.

Definition todo : StickyNote :=
  mkNote 1 "todo" 600 80 250 150 false false None None.

(** One open note, saved. *)
Definition desk : World :=
  mkWorld [memo] 1 (Some (Document (VList [note_record memo]))) true "" cascade.

(** Two open notes, saved. *)
Definition desk2 : World :=
  mkWorld [memo; todo] 2
          (Some (Document (VList [note_record memo; note_record todo]))) true "" cascade.

(** A drag by the toolbar, the strip of 40 pixels above the editor:
    pressed at (100, 20), moved to (110, 30), released. *)
Definition toolbar_drag (self : nat) : list Event :=
  [MousePress self (left_at 100 20); MouseMove self (left_at 110 30);
   MouseRelease self (left_at 110 30)].

(** A resize by the corner of a note of 200 by 200: pressed at
    (197, 197), moved to (267, 257), released. *)
Definition corner_resize (self : nat) : list Event :=
  [MousePress self (left_at 197 197); MouseMove self (left_at 267 257);
   MouseRelease self (left_at 267 257)].

Definition corner_note : StickyNote := mkNote 0 "memo" 0 0 200 200 false false None None.
Definition corner_desk : World := mkWorld [corner_note] 1 None true "" cascade.

Definition broken_record : value :=
  VDict [("text", VStr "memo"); ("x", VInt 300); ("y", VInt 300); ("width", VInt 200)].

Definition resizing_note : StickyNote :=
  mkNote 0 "memo" 300 300 200 200 false true
         (Some (inject_Z 190, inject_Z 190)) (Some (200, 200)).

Definition resizing_desk : World := mkWorld [resizing_note] 1 None true "" cascade.

Definition shuffled_record : list (string * value) :=
  [("colour", VStr "yellow"); ("height", VInt (-60)); ("width", VInt 4000);
   ("y", VInt 0); ("x", VInt 0); ("text", VStr "buy milk")].

Definition numbered_record : list (string * value) :=
  [("text", VInt 7); ("x", VInt 30); ("y", VInt 40);
   ("width", VInt 200); ("height", VInt 200)].

Definition pressed_desk : World := exec (mousePressEvent 0 (left_at 50 50)) desk.

Definition milk_session : list Event :=
  [Hotkey; TextEdited 0 "milk"; MousePress 0 (left_at 50 50);
   MouseMove 0 (left_at 60 70); MouseRelease 0 (left_at 60 70)].

(** ** Reasoning about computations *)

Lemma exec_bind {A B} (c : M A) (k : A -> M B) w :
  exec (bind c k) w =
  match fst (c w) with
  | Ok a => exec (k a) (exec c w)
  | Raise _ => exec c w
  end.
Proof.
  unfold exec, bind. destruct (c w) as [[a | e] w']; reflexivity.
Qed.

Lemma preserves_ret {A} P (a : A) : preserves P (ret a).
Proof. intros w H. exact H. Qed.

Lemma preserves_raise {A} P e : preserves P (@raise A e).
Proof. intros w H. exact H. Qed.

Lemma preserves_get P : preserves P get.
Proof. intros w H. exact H. Qed.

Lemma preserves_lift {A} P (r : result A) : preserves P (lift r).
Proof. destruct r; intros w H; exact H. Qed.

Lemma preserves_modify P f :
  (forall w, P w -> P (f w)) -> preserves P (modify f).
Proof. intros Hf w H. apply Hf, H. Qed.

Lemma preserves_bind {A B} P (c : M A) (k : A -> M B) :
  preserves P c -> (forall a, preserves P (k a)) -> preserves P (bind c k).
Proof.
  intros Hc Hk w H. rewrite exec_bind.
  destruct (fst (c w)); [apply Hk|]; apply Hc, H.
Qed.

(** After [get] the continuation may use that the value read is the
    current world. *)
Lemma preserves_get_bind {A} P (k : World -> M A) :
  (forall w, P w -> P (exec (k w) w)) -> preserves P (bind get k).
Proof. intros Hk w H. apply (Hk w H). Qed.

Lemma preserves_bind_get {A} P (k : World -> M A) :
  (forall w0, preserves P (k w0)) -> preserves P (bind get k).
Proof. intros Hk w H. apply (Hk w w H). Qed.

Lemma preserves_if {A} P (b : bool) (c1 c2 : M A) :
  preserves P c1 -> preserves P c2 -> preserves P (if b then c1 else c2).
Proof. destruct b; auto. Qed.

Lemma preserves_for_each {A} P (l : list A) body :
  (forall a, preserves P (body a)) -> preserves P (for_each l body).
Proof.
  intros Hb. induction l as [| a r IH]; simpl.
  - apply preserves_ret.
  - apply preserves_bind; [apply Hb | intros _; exact IH].
Qed.

Lemma preserves_on P self body :
  (forall n, preserves P (body n)) -> preserves P (on self body).
Proof.
  intros Hb w H. unfold exec, on.
  destruct (find_note self (notes w)) as [n |]; [apply (Hb n w H) | exact H].
Qed.

Lemma frames_preserves {A B} (proj : World -> B) (c : M A) :
  (forall b, preserves (fun w => proj w = b) c) -> frames proj c.
Proof. intros H w. apply (H (proj w) w). reflexivity. Qed.

(** Splits a computation along its binds and branches. *)
Ltac pres_step :=
  match goal with
  | |- preserves _ (bind get _) => apply preserves_bind_get; intro
  | |- preserves _ (bind _ _) => apply preserves_bind; [| intro]
  | |- preserves _ (ret _) => apply preserves_ret
  | |- preserves _ (raise _) => apply preserves_raise
  | |- preserves _ get => apply preserves_get
  | |- preserves _ (lift _) => apply preserves_lift
  | |- preserves _ (for_each _ _) => apply preserves_for_each; intro
  | |- preserves _ (on _ _) => apply preserves_on; intro
  | |- preserves _ (if _ then _ else _) => apply preserves_if
  | |- preserves _ (match ?o with Some _ => _ | None => _ end) => destruct o
  | |- preserves _ (match ?v with VStr _ => _ | _ => _ end) => destruct v
  end.

(** ** The attribute updates the program makes *)

Lemma benign_set_pos ax ay : benign (set_pos ax ay).
Proof. intros n. split; [reflexivity | intros H; exact H]. Qed.

Lemma benign_set_text s : benign (set_text s).
Proof. intros n. split; [reflexivity | intros H; exact H]. Qed.

Lemma benign_set_gesture (d r : StickyNote -> bool) p s :
  benign (fun n => set_gesture (d n) (r n) (p n) (s n) n).
Proof. intros n. split; [reflexivity | intros H; exact H]. Qed.

Lemma bounded_floor lo v : lo <= bounded lo v.
Proof. unfold bounded. lia. Qed.

Lemma benign_set_size aw ah :
  benign (fun n => set_size (bounded (minimumWidth n) aw)
                            (bounded (minimumHeight n) ah) n).
Proof.
  intros n. split; [reflexivity |]. intros _. split; simpl.
  - apply (bounded_floor 100).
  - apply (bounded_floor 100).
Qed.

(** ** Invariants of the whole program

    A property of worlds that every primitive step keeps is kept by
    every handler, by start-up and by every session. *)
Section Invariant.

Variable P : World -> Prop.

Hypothesis P_note : forall self f w,
  benign f -> P w -> P (set_notes (update_note self f (notes w)) w).
Hypothesis P_save : forall w,
  P w -> P (set_store (Some (json_dump (VList (records w)))) w).
Hypothesis P_clipboard : forall s w, P w -> P (set_clipboard s w).
Hypothesis P_append : forall w, P w -> P (appended w).
Hypothesis P_remove : forall self l w,
  list_remove self (notes w) = Some l -> P w -> P (set_notes l w).
Hypothesis P_app : forall w, P w -> P (set_app true w).

Lemma inv_modify_note self f : benign f -> preserves P (modify_note self f).
Proof. intros Hf w H. apply P_note; assumption. Qed.

Lemma inv_move self ax ay : preserves P (QWidget_move self ax ay).
Proof.
  unfold QWidget_move. pres_step; [| pres_step].
  apply inv_modify_note, benign_set_pos.
Qed.

Lemma inv_resize self aw ah : preserves P (QWidget_resize self aw ah).
Proof.
  unfold QWidget_resize. pres_step; [| pres_step].
  apply inv_modify_note, benign_set_size.
Qed.

Lemma inv_show self : preserves P (QWidget_show self).
Proof.
  unfold QWidget_show. pres_step.
  apply inv_modify_note, benign_set_pos.
Qed.

Lemma inv_save_notes : preserves P save_notes.
Proof.
  unfold save_notes. apply preserves_get_bind. intros w H. apply P_save, H.
Qed.

Lemma inv_on_text_changed : preserves P on_text_changed.
Proof.
  unfold on_text_changed. repeat pres_step. apply inv_save_notes.
Qed.

Lemma inv_text_changed self s : preserves P (text_changed self s).
Proof.
  unfold text_changed. pres_step.
  - apply inv_modify_note, benign_set_text.
  - apply inv_on_text_changed.
Qed.

Lemma inv_setPlainText self v : preserves P (setPlainText self v).
Proof.
  unfold setPlainText. destruct v; try apply preserves_raise.
  apply inv_text_changed.
Qed.

Lemma inv_StickyNote_init v : preserves P (StickyNote_init v).
Proof.
  unfold StickyNote_init. apply preserves_bind_get. intros w0. cbv zeta.
  repeat pres_step.
  - apply preserves_modify, P_append.
  - apply inv_setPlainText.
  - apply inv_resize.
  - apply inv_modify_note, (benign_set_gesture (fun _ => false) (fun _ => false)
                                               (fun _ => None) (fun _ => None)).
  - apply inv_show.
Qed.

Lemma inv_copy_with_feedback self : preserves P (copy_with_feedback self).
Proof.
  unfold copy_with_feedback. pres_step. apply preserves_modify, P_clipboard.
Qed.

Lemma inv_create_new_note : preserves P create_new_note.
Proof.
  unfold create_new_note. repeat pres_step.
  - apply inv_StickyNote_init.
  - apply inv_move.
Qed.

Lemma inv_delete_note self : preserves P (delete_note self).
Proof.
  unfold delete_note. apply preserves_get_bind. intros w H.
  destruct (list_remove self (notes w)) as [l |] eqn:E; [| exact H].
  revert w H E. 
  assert (Hk : preserves P (w <- get ;;
               (if sticky_notes_app w then save_notes else ret tt))).
  { repeat pres_step. apply inv_save_notes. }
  intros w H E. rewrite exec_bind. simpl. apply Hk. apply (P_remove self); assumption.
Qed.

Lemma inv_mousePressEvent self e : preserves P (mousePressEvent self e).
Proof.
  unfold mousePressEvent. repeat pres_step.
  - apply inv_copy_with_feedback.
  - apply inv_modify_note,
      (benign_set_gesture _dragging (fun _ => true) (fun _ => Some (position e))
                          (fun n => Some (width n, height n))).
  - apply inv_modify_note,
      (benign_set_gesture (fun _ => true) _resizing (fun _ => Some (position e))
                          _start_size).
Qed.

Lemma inv_mouseMoveEvent self e : preserves P (mouseMoveEvent self e).
Proof.
  unfold mouseMoveEvent. pres_step. pres_step; [| pres_step].
  - destruct (_start_pos n), (_start_size n); try apply preserves_raise.
    apply inv_resize.
  - destruct (_start_pos n); [apply inv_move | apply preserves_ret].
  - apply preserves_ret.
Qed.

Lemma inv_mouseReleaseEvent self e : preserves P (mouseReleaseEvent self e).
Proof.
  apply inv_modify_note, (benign_set_gesture (fun _ => false) (fun _ => false)
                                             (fun _ => None) (fun _ => None)).
Qed.

Lemma inv_create_note_safe t pos size : preserves P (create_note_safe t pos size).
Proof.
  unfold create_note_safe. repeat pres_step.
  - apply inv_StickyNote_init.
  - apply inv_move.
  - apply inv_resize.
Qed.

Lemma inv_load_one v : preserves P (load_one v).
Proof.
  unfold load_one. repeat pres_step. apply inv_create_note_safe.
Qed.

Lemma inv_load_notes : preserves P load_notes.
Proof.
  unfold load_notes. apply preserves_bind_get. intros w0.
  repeat pres_step. apply inv_load_one.
Qed.

Lemma inv_StickyNotesApp_init : preserves P StickyNotesApp_init.
Proof.
  unfold StickyNotesApp_init. pres_step.
  - apply preserves_modify, P_app.
  - apply inv_load_notes.
Qed.

Lemma inv_dispatch ev : preserves P (dispatch ev).
Proof.
  destruct ev; simpl; repeat pres_step.
  - apply inv_create_note_safe.
  - apply inv_create_note_safe.
  - apply inv_save_notes.
  - apply inv_text_changed.
  - apply inv_create_new_note.
  - apply inv_delete_note.
  - apply inv_mousePressEvent.
  - apply inv_mouseMoveEvent.
  - apply inv_mouseReleaseEvent.
Qed.

Lemma inv_event_loop evs : preserves P (event_loop evs).
Proof.
  induction evs as [| ev r IH]; simpl.
  - apply preserves_ret.
  - destruct ev; try (apply preserves_bind; [apply inv_dispatch | intros _; exact IH]).
    apply (inv_dispatch TrayQuit).
Qed.

Lemma inv_session evs : preserves P (session evs).
Proof.
  unfold session. pres_step; [apply inv_StickyNotesApp_init | apply inv_event_loop].
Qed.

End Invariant.

(** ** Lists of notes *)

Lemma update_note_ids self f l :
  (forall n, nid (f n) = nid n) -> map nid (update_note self f l) = map nid l.
Proof.
  intros Hf. unfold update_note. rewrite map_map. apply map_ext.
  intros n. destruct (Nat.eqb (nid n) self); [apply Hf | reflexivity].
Qed.

Lemma update_note_floor self f l :
  benign f -> Forall size_floor l -> Forall size_floor (update_note self f l).
Proof.
  intros Hf H. unfold update_note. apply Forall_map.
  eapply Forall_impl; [| exact H]. intros n Hn. simpl.
  destruct (Nat.eqb (nid n) self); [apply Hf, Hn | exact Hn].
Qed.

Lemma update_note_length self f l :
  List.length (update_note self f l) = List.length l.
Proof. apply List.length_map. Qed.

Lemma update_note_absent self f l :
  Forall (fun n => nid n <> self) l -> update_note self f l = l.
Proof.
  intros H. unfold update_note. rewrite <- (map_id l) at 2.
  apply map_ext_in. intros n Hn.
  rewrite Forall_forall in H. specialize (H n Hn).
  destruct (Nat.eqb_spec (nid n) self); [contradiction | reflexivity].
Qed.

(** On a list whose other notes have other identities, an update
    touches the last note only. *)
Lemma update_note_last self f pre n :
  Forall (fun m => nid m <> self) pre -> nid n = self ->
  update_note self f (pre ++ [n]) = pre ++ [f n].
Proof.
  intros Hpre Hn. unfold update_note. rewrite map_app.
  fold (update_note self f pre). rewrite (update_note_absent _ _ _ Hpre).
  simpl. rewrite Hn, Nat.eqb_refl. reflexivity.
Qed.

Lemma find_update_note self f l :
  (forall n, nid (f n) = nid n) ->
  find_note self (update_note self f l) = option_map f (find_note self l).
Proof.
  intros Hf. unfold find_note, update_note. induction l as [| n r IH]; simpl.
  - reflexivity.
  - destruct (Nat.eqb (nid n) self) eqn:E.
    + rewrite Hf, E. reflexivity.
    + rewrite E. exact IH.
Qed.

(** What [list.remove] does: the list splits around the first note
    with that identity. *)
Lemma list_remove_split self l l' :
  list_remove self l = Some l' ->
  exists a n b, l = a ++ n :: b /\ l' = a ++ b /\ nid n = self /\
                Forall (fun m => nid m <> self) a.
Proof.
  revert l'. induction l as [| m r IH]; simpl; intros l' H.
  - discriminate.
  - destruct (Nat.eqb_spec (nid m) self) as [E | E].
    + injection H as <-. exists [], m, r. repeat split; auto.
    + destruct (list_remove self r) as [r' |]; [| discriminate].
      injection H as <-. destruct (IH r' eq_refl) as (a & n & b & -> & -> & Hn & Ha).
      exists (m :: a), n, b. repeat split; auto.
Qed.

Lemma list_remove_found self l n :
  In n l -> nid n = self -> exists l', list_remove self l = Some l'.
Proof.
  intros Hin Hn. induction l as [| m r IH]; simpl.
  - destruct Hin.
  - destruct (Nat.eqb_spec (nid m) self) as [E | E].
    + eauto.
    + destruct Hin as [-> | Hin]; [contradiction |].
      destruct (IH Hin) as [r' ->]. simpl. eauto.
Qed.

Lemma sorted_snoc (l : list nat) k :
  StronglySorted lt l -> Forall (fun i => (i < k)%nat) l ->
  StronglySorted lt (l ++ [k]).
Proof.
  intros Hs Hb. induction Hs as [| i r Hr IH Hi]; simpl.
  - constructor; constructor.
  - inversion Hb; subst. constructor.
    + apply IH. assumption.
    + apply Forall_app. split; [exact Hi | constructor; [assumption | constructor]].
Qed.

Lemma sorted_drop (a : list nat) i b :
  StronglySorted lt (a ++ i :: b) -> StronglySorted lt (a ++ b).
Proof.
  induction a as [| j a IH]; simpl; intros H.
  - inversion H; assumption.
  - inversion H as [| ? ? Hs Hf]; subst. constructor.
    + apply IH, Hs.
    + apply Forall_app in Hf. destruct Hf as [Hf1 Hf2].
      inversion Hf2; subst. apply Forall_app. split; assumption.
Qed.

Lemma sorted_NoDup (l : list nat) : StronglySorted lt l -> NoDup l.
Proof.
  induction 1 as [| i r Hr IH Hi]; constructor; [| exact IH].
  intros Hin. rewrite Forall_forall in Hi. specialize (Hi i Hin). lia.
Qed.

(** ** The invariants of a session *)

Lemma floor_append w : floor_holds w -> floor_holds (appended w).
Proof.
  intros H. unfold floor_holds. simpl. apply Forall_app. split; [exact H |].
  constructor; [| constructor]. split; simpl; lia.
Qed.

Lemma floor_remove self l w :
  list_remove self (notes w) = Some l -> floor_holds w -> floor_holds (set_notes l w).
Proof.
  unfold floor_holds. simpl. intros E H. apply list_remove_split in E.
  destruct E as (a & n & b & E & -> & _ & _). rewrite E in H.
  apply Forall_app in H. destruct H as [Ha Hb]. inversion Hb; subst.
  apply Forall_app. split; assumption.
Qed.

Lemma floor_note self f w :
  benign f -> floor_holds w ->
  floor_holds (set_notes (update_note self f (notes w)) w).
Proof. intros Hf H. apply update_note_floor; assumption. Qed.

Lemma floor_dispatch ev : preserves floor_holds (dispatch ev).
Proof.
  apply inv_dispatch.
  - exact floor_note.
  - intros w H. exact H.
  - intros s w H. exact H.
  - exact floor_append.
  - exact floor_remove.
Qed.

Lemma floor_invariant evs : preserves floor_holds (session evs).
Proof.
  apply inv_session.
  - exact floor_note.
  - intros w H. exact H.
  - intros s w H. exact H.
  - exact floor_append.
  - exact floor_remove.
  - intros w H. exact H.
Qed.

Lemma creation_order_note self f w :
  benign f -> creation_order w ->
  creation_order (set_notes (update_note self f (notes w)) w).
Proof.
  intros Hf [Hs Hb]. unfold creation_order, ids in *. simpl.
  rewrite update_note_ids; [split; assumption | apply Hf].
Qed.

Lemma creation_order_append w : creation_order w -> creation_order (appended w).
Proof.
  intros [Hs Hb]. unfold creation_order, ids in *. simpl.
  rewrite map_app. simpl. split.
  - apply sorted_snoc; assumption.
  - apply Forall_app. split.
    + eapply Forall_impl; [| exact Hb]. simpl. intros; lia.
    + constructor; [lia | constructor].
Qed.

Lemma creation_order_remove self l w :
  list_remove self (notes w) = Some l -> creation_order w ->
  creation_order (set_notes l w).
Proof.
  intros E [Hs Hb]. unfold creation_order, ids in *. simpl.
  apply list_remove_split in E. destruct E as (a & n & b & E & -> & _ & _).
  rewrite E, map_app in Hs, Hb. simpl in Hs, Hb. rewrite map_app. split.
  - eapply sorted_drop, Hs.
  - apply Forall_app in Hb. destruct Hb as [Ha Hb]. inversion Hb; subst.
    apply Forall_app. split; assumption.
Qed.

Lemma creation_order_session evs : preserves creation_order (session evs).
Proof.
  apply inv_session.
  - exact creation_order_note.
  - intros w H. exact H.
  - intros s w H. exact H.
  - exact creation_order_append.
  - exact creation_order_remove.
  - intros w H. exact H.
Qed.

Lemma creation_order_fresh f pl : creation_order (fresh_process f pl).
Proof. split; constructor. Qed.

Lemma creation_order_fresh_id w :
  creation_order w -> Forall (fun m => nid m <> next_id w) (notes w).
Proof.
  intros [_ Hb]. unfold ids in Hb. rewrite Forall_map in Hb.
  eapply Forall_impl; [| exact Hb]. simpl. intros m Hm. lia.
Qed.

Lemma creation_order_NoDup w : creation_order w -> NoDup (ids w).
Proof. intros [Hs _]. apply sorted_NoDup, Hs. Qed.

(** ** What the constructor does *)

Lemma construction_modify_note pre self f :
  Forall (fun m => nid m <> self) pre -> (forall n, nid (f n) = nid n) ->
  preserves (under_construction pre self) (modify_note self f).
Proof.
  intros Hpre Hf w (n & E & Hn). exists (f n). unfold exec. simpl.
  rewrite E, (update_note_last _ _ _ _ Hpre Hn). split; [reflexivity |].
  rewrite Hf. exact Hn.
Qed.

Lemma construction_rest pre self v :
  Forall (fun m => nid m <> self) pre ->
  preserves (under_construction pre self)
    ((if truthy v then setPlainText self v else ret tt) ;;
     QWidget_resize self 200 200 ;;
     modify_note self (set_gesture false false None None) ;;
     QWidget_show self ;;
     ret self).
Proof.
  intros Hpre.
  assert (Hm : forall f, (forall n, nid (f n) = nid n) ->
                         preserves (under_construction pre self) (modify_note self f)).
  { intros f Hf. apply construction_modify_note; assumption. }
  unfold setPlainText, text_changed, on_text_changed, save_notes,
         QWidget_resize, QWidget_show.
  repeat pres_step; try (apply Hm; intros n; reflexivity);
    try apply preserves_raise; try apply preserves_ret.
  all: try (apply preserves_modify; intros w H; exact H).
Qed.

Lemma StickyNote_init_appends v w :
  creation_order w ->
  exists n, notes (exec (StickyNote_init v) w) = notes w ++ [n] /\ nid n = next_id w.
Proof.
  intros Hw. apply creation_order_fresh_id in Hw.
  unfold StickyNote_init. unfold exec at 1. unfold bind at 1. simpl.
  unfold bind at 1. simpl.
  apply (construction_rest (notes w) (next_id w) v Hw (appended w)).
  exists (new_window (next_id w)). split; reflexivity.
Qed.

(** ** What the handlers do *)

Lemma StickyNote_init_blank v w :
  Forall (fun m => nid m <> next_id w) (notes w) ->
  truthy v = false ->
  StickyNote_init v w =
  (Ok (next_id w),
   mkWorld (notes w ++ [mkNote (next_id w) "" (fst (placement w (next_id w)))
                               (snd (placement w (next_id w))) 200 200
                               false false None None])
           (S (next_id w)) (store w) (sticky_notes_app w) (clipboard w) (placement w)).
Proof.
  intros Hfresh Hv. unfold StickyNote_init. rewrite Hv.
  unfold bind, get, modify, ret, QWidget_resize, QWidget_show, modify_note,
         bind, get, modify, new_window. simpl.
  repeat (rewrite update_note_last; [| assumption | reflexivity]).
  reflexivity.
Qed.

Lemma StickyNote_init_text s w :
  Forall (fun m => nid m <> next_id w) (notes w) ->
  s <> "" ->
  StickyNote_init (VStr s) w =
  (Ok (next_id w),
   mkWorld (notes w ++ [mkNote (next_id w) s (fst (placement w (next_id w)))
                               (snd (placement w (next_id w))) 200 200
                               false false None None])
           (S (next_id w))
           (if sticky_notes_app w
            then Some (Document (VList (map note_record
                   (notes w ++ [mkNote (next_id w) s 0 0 640 480 false false None None]))))
            else store w)
           (sticky_notes_app w) (clipboard w) (placement w)).
Proof.
  intros Hfresh Hs. unfold StickyNote_init. simpl truthy.
  apply String.eqb_neq in Hs. rewrite Hs. simpl negb. cbv iota.
  unfold setPlainText, text_changed, on_text_changed, save_notes.
  unfold bind, get, modify, ret, QWidget_resize, QWidget_show, modify_note,
         bind, get, modify, new_window. simpl.
  destruct (sticky_notes_app w) eqn:Happ; simpl;
  repeat (rewrite update_note_last; [| assumption | reflexivity]);
  unfold set_notes, set_store, appended; simpl; rewrite Happ; reflexivity.
Qed.

Lemma bind_ok {A B} (c : M A) (k : A -> M B) w a w' :
  c w = (Ok a, w') -> bind c k w = k a w'.
Proof. intros H. unfold bind. rewrite H. reflexivity. Qed.

Lemma size_in_int v : 100 <= v <= QWIDGETSIZE_MAX -> in_int v = true.
Proof.
  intros H. unfold in_int, INT_MIN, INT_MAX, QWIDGETSIZE_MAX in *.
  apply andb_true_intro. split; apply Z.leb_le; lia.
Qed.

Lemma bounded_id v : 100 <= v <= QWIDGETSIZE_MAX -> bounded 100 v = v.
Proof. unfold bounded. lia. Qed.

Lemma StickyNote_init_str s w :
  Forall (fun m => nid m <> next_id w) (notes w) ->
  exists st,
  StickyNote_init (VStr s) w =
  (Ok (next_id w),
   mkWorld (notes w ++ [mkNote (next_id w) s (fst (placement w (next_id w)))
                               (snd (placement w (next_id w))) 200 200
                               false false None None])
           (S (next_id w)) st (sticky_notes_app w) (clipboard w) (placement w)).
Proof.
  intros Hfresh. destruct (String.eqb_spec s "") as [-> | Hs].
  - eexists. apply StickyNote_init_blank; [assumption | reflexivity].
  - eexists. apply StickyNote_init_text; assumption.
Qed.

Lemma bind_ret {A B} (a : A) (k : A -> M B) : bind (ret a) k = k a.
Proof. reflexivity. Qed.

Lemma load_one_record n w :
  Forall (fun m => nid m <> next_id w) (notes w) ->
  geometry_ok n ->
  exists st,
    load_one (note_record n) w =
    (Ok tt, mkWorld (notes w ++ [restored (placement w) (next_id w) n])
                    (S (next_id w)) st
                    (sticky_notes_app w) (clipboard w) (placement w)).
Proof.
  intros Hfresh (Hx & Hy & Hw & Hh).
  destruct (StickyNote_init_str (text n) w Hfresh) as [st Hinit].
  exists st. unfold load_one.
  repeat (simpl subscript; simpl lift; rewrite bind_ret).
  unfold QPoint_new, QSize_new. simpl is_intlike. simpl andb. cbv iota.
  unfold as_int. rewrite Hx, Hy. simpl lift. rewrite bind_ret.
  repeat (simpl subscript; simpl lift; rewrite bind_ret).
  rewrite (size_in_int _ Hw), (size_in_int _ Hh). simpl lift. rewrite bind_ret.
  unfold create_note_safe.
  rewrite (bind_ok _ _ _ _ _ Hinit).
  unfold QPoint_bool, QSize_bool, QWidget_move, QWidget_resize. simpl px. simpl py. simpl sw. simpl sh.
  rewrite Hx, Hy, (size_in_int _ Hw), (size_in_int _ Hh). simpl andb.
  replace ((0 <=? width n) && (0 <=? height n)) with true
    by (symmetry; apply andb_true_intro; split; apply Z.leb_le; lia).
  unfold restored. fold (at_origin n).
  destruct (at_origin n); simpl negb; cbv iota;
    unfold bind, ret, modify_note, modify; simpl;
    repeat (rewrite update_note_last; [| assumption | reflexivity]);
    unfold set_size, set_pos, set_notes, minimumWidth, minimumHeight; simpl;
    rewrite (bounded_id _ Hw), (bounded_id _ Hh); reflexivity.
Qed.

Lemma list_remove_filter self l l' :
  NoDup (map nid l) -> list_remove self l = Some l' ->
  l' = filter (fun m => negb (Nat.eqb (nid m) self)) l.
Proof.
  revert l'. induction l as [| m r IH]; simpl; intros l' Hnd H.
  - discriminate.
  - inversion Hnd as [| ? ? Hm Hr]; subst.
    destruct (Nat.eqb_spec (nid m) self) as [E | E]; simpl.
    + injection H as <-. symmetry. apply forallb_filter_id.
      apply forallb_forall. intros k Hk. apply negb_true_iff, Nat.eqb_neq.
      intros Ek. apply Hm. rewrite E, <- Ek. apply in_map, Hk.
    + destruct (list_remove self r) as [r' |]; [| discriminate].
      injection H as <-. f_equal. apply IH; [assumption | reflexivity].
Qed.

Lemma nid_injective (l : list StickyNote) a b :
  NoDup (map nid l) -> In a l -> In b l -> nid a = nid b -> a = b.
Proof.
  induction l as [| m r IH]; simpl; intros Hnd Ha Hb E.
  - destruct Ha.
  - inversion Hnd as [| ? ? Hm Hr]; subst.
    destruct Ha as [-> | Ha], Hb as [-> | Hb].
    + reflexivity.
    + exfalso. apply Hm. rewrite E. apply in_map, Hb.
    + exfalso. apply Hm. rewrite <- E. apply in_map, Ha.
    + apply IH; assumption.
Qed.

Lemma second_last_snoc2 (pre : list StickyNote) a b :
  second_last (pre ++ [a] ++ [b]) = Some a.
Proof.
  unfold second_last. rewrite !List.length_app. simpl.
  replace (List.length pre + 2 - 2)%nat with (List.length pre + 0)%nat by lia.
  rewrite nth_error_app2 by lia.
  replace (List.length pre + 0 - List.length pre)%nat with 0%nat by lia. reflexivity.
Qed.

Lemma create_new_note_spec w pre prev :
  creation_order w -> notes w = pre ++ [prev] ->
  in_int (x prev + 20) = true -> in_int (y prev + 20) = true ->
  create_new_note w =
  (Ok tt,
   mkWorld (notes w ++ [mkNote (next_id w) "" (x prev + 20) (y prev + 20) 200 200
                               false false None None])
           (S (next_id w)) (store w) (sticky_notes_app w) (clipboard w) (placement w)).
Proof.
  intros Hw E Hx Hy. apply creation_order_fresh_id in Hw.
  unfold create_new_note.
  rewrite (bind_ok _ _ _ _ _ (StickyNote_init_blank (VStr "") w Hw eq_refl)).
  unfold bind at 1. unfold get at 1. cbv beta iota.
  cbn [notes].
  match goal with
  | |- context [second_last (notes w ++ [?n])] =>
      replace (second_last (notes w ++ [n])) with (Some prev)
        by (symmetry; rewrite E, <- app_assoc; apply second_last_snoc2)
  end.
  match goal with
  | |- context [(1 <? ?k)%nat] =>
      replace (1 <? k)%nat with true
        by (symmetry; apply Nat.ltb_lt; rewrite E, !List.length_app; simpl; lia)
  end.
  unfold QWidget_move. rewrite Hx, Hy. cbn [andb].
  unfold modify_note, modify, set_notes.
  cbn [notes next_id store sticky_notes_app clipboard placement].
  rewrite update_note_last; [reflexivity | assumption | reflexivity].
Qed.

Lemma Qgtb_lt a b : Qgtb a b = true <-> (b < a)%Q.
Proof.
  unfold Qgtb. rewrite negb_true_iff. split.
  - intros H. apply Qnot_le_lt. intros Hle. apply Qle_bool_iff in Hle. congruence.
  - intros H. destruct (Qle_bool a b) eqn:E; [| reflexivity].
    apply Qle_bool_iff in E. exfalso. apply (Qlt_not_le _ _ H E).
Qed.

Lemma in_corner_near n pos :
  100 <= height n -> in_corner n pos = near_corner n pos.
Proof.
  intros Hh. unfold in_corner, near_corner.
  destruct (Qgtb (fst pos) _); simpl; [| reflexivity].
  destruct (Qgtb (snd pos) (inject_Z (height n - resize_margin n))) eqn:E;
    simpl; [| reflexivity].
  apply Qgtb_lt. apply Qgtb_lt in E.
  eapply Qle_lt_trans; [| exact E].
  rewrite <- Zle_Qle. unfold resize_margin. lia.
Qed.

Lemma py_int_floor q m :
  0 <= m -> m <= py_int (py_max q (inject_Z m)).
Proof.
  intros Hm. unfold py_max. destruct (Qgtb (inject_Z m) q) eqn:E.
  - unfold py_int. simpl. rewrite Z.quot_1_r. lia.
  - assert (Hle : (inject_Z m <= q)%Q).
    { apply Qle_bool_iff. unfold Qgtb in E. apply negb_false_iff in E. exact E. }
    unfold Qle in Hle. simpl in Hle. unfold py_int.
    assert (Hn : 0 <= Qnum q).
    { rewrite Z.mul_1_r in Hle. 
      assert (0 <= m * Z.pos (Qden q)) by (apply Z.mul_nonneg_nonneg; lia). lia. }
    rewrite Z.quot_div_nonneg by lia.
    apply Z.div_le_lower_bound; lia.
Qed.

Lemma press_spec w self n e :
  find_note self (notes w) = Some n ->
  exists n',
    find_note self (notes (exec (mousePressEvent self e) w)) = Some n' /\
    (if is_LeftButton (button e) && negb (is_ControlModifier (modifiers e))
     then if in_corner n (position e)
          then _resizing n' = true /\ _dragging n' = _dragging n
          else _dragging n' = true /\ _resizing n' = _resizing n
     else _dragging n' = _dragging n /\ _resizing n' = _resizing n).
Proof.
  intros Hf. unfold exec, mousePressEvent, on. rewrite Hf.
  destruct (is_LeftButton (button e)); simpl andb; cbv iota.
  - destruct (is_ControlModifier (modifiers e)); simpl negb; cbv iota.
    + exists n. unfold copy_with_feedback, on. rewrite Hf. simpl. auto.
    + destruct (in_corner n (position e)); unfold modify_note, modify; simpl;
        rewrite find_update_note by reflexivity; rewrite Hf; simpl;
        eexists; split; try reflexivity; simpl; auto.
  - exists n. simpl. auto.
Qed.

Lemma release_spec w self n e :
  find_note self (notes w) = Some n ->
  exists n',
    find_note self (notes (exec (mouseReleaseEvent self e) w)) = Some n' /\
    _dragging n' = false /\ _resizing n' = false /\
    _start_pos n' = None /\ _start_size n' = None.
Proof.
  intros Hf. unfold exec, mouseReleaseEvent, modify_note, modify. simpl.
  rewrite find_update_note by reflexivity. rewrite Hf. simpl.
  eexists. split; [reflexivity |]. simpl. auto.
Qed.

Lemma raises_bind_raise {A B} (k : A -> M B) e w :
  raises (bind (raise e) k) w.
Proof. exists e. reflexivity. Qed.

Lemma raises_bind {A B} (c : M A) (k : A -> M B) w :
  (forall a, fst (c w) = Ok a -> raises (k a) (exec c w)) ->
  raises (bind c k) w.
Proof.
  intros H. unfold raises, bind, exec in *.
  destruct (c w) as [[a | e] w']; simpl in *.
  - apply (H a eq_refl).
  - exists e. reflexivity.
Qed.

Lemma load_one_missing_key d k w :
  In k five_keys -> dict_get d k = None -> raises (load_one (VDict d)) w.
Proof.
  intros Hk Hd. unfold load_one, subscript.
  destruct (dict_get d "text") eqn:Et; [| apply raises_bind_raise].
  simpl lift. rewrite bind_ret.
  destruct (dict_get d "x") eqn:Ex; [| apply raises_bind_raise].
  simpl lift. rewrite bind_ret.
  destruct (dict_get d "y") eqn:Ey; [| apply raises_bind_raise].
  simpl lift. rewrite bind_ret.
  destruct (QPoint_new v0 v1); [| apply raises_bind_raise].
  simpl lift. rewrite bind_ret.
  destruct (dict_get d "width") eqn:Ew; [| apply raises_bind_raise].
  simpl lift. rewrite bind_ret.
  destruct (dict_get d "height") eqn:Eh; [| apply raises_bind_raise].
  exfalso. simpl in Hk.
  destruct Hk as [<- | [<- | [<- | [<- | [<- | []]]]]]; congruence.
Qed.

Lemma for_each_raises {A} (body : A -> M unit) (l : list A) a :
  In a l -> (forall w, raises (body a) w) -> forall w, raises (for_each l body) w.
Proof.
  intros Hin Ha. induction l as [| b r IH]; intros w.
  - destruct Hin.
  - simpl. destruct Hin as [-> | Hin].
    + apply raises_bind. intros [] Hok. destruct (Ha w) as [e He]. congruence.
    + apply raises_bind. intros _ _. apply IH, Hin.
Qed.

Lemma for_each_reload ns : forall w,
  Forall (fun m => (nid m < next_id w)%nat) (notes w) ->
  Forall geometry_ok ns ->
  exists st,
    for_each (map note_record ns) load_one w =
    (Ok tt, mkWorld (notes w ++ reloaded (placement w) (next_id w) ns)
                    (next_id w + List.length ns) st
                    (sticky_notes_app w) (clipboard w) (placement w)).
Proof.
  induction ns as [| n r IH]; intros w Hw Hg.
  - exists (store w). simpl. rewrite app_nil_r, Nat.add_0_r. destruct w; reflexivity.
  - inversion Hg as [| ? ? Hn Hr]; subst.
    assert (Hfresh : Forall (fun m => nid m <> next_id w) (notes w)).
    { eapply Forall_impl; [| exact Hw]. simpl. intros; lia. }
    destruct (load_one_record n w Hfresh Hn) as [st1 H1].
    simpl map. simpl for_each. rewrite (bind_ok _ _ _ _ _ H1).
    match goal with |- context [for_each _ _ ?w1] => destruct (IH w1) as [st2 H2] end.
    + cbn [notes next_id]. apply Forall_app. split.
      * eapply Forall_impl; [| exact Hw]. simpl. intros; lia.
      * constructor; [simpl; lia | constructor].
    + exact Hr.
    + exists st2. rewrite H2. cbn [notes next_id placement sticky_notes_app clipboard].
      rewrite <- app_assoc. simpl. rewrite Nat.add_succ_r. reflexivity.
Qed.

Lemma reloaded_records pl ns : forall k,
  Forall (fun n => at_origin n = false) ns ->
  map note_record (reloaded pl k ns) = map note_record ns.
Proof.
  induction ns as [| n r IH]; intros k H; simpl.
  - reflexivity.
  - inversion H as [| ? ? Hn Hr]; subst. rewrite (IH (S k) Hr).
    unfold restored, note_record. simpl. rewrite Hn. reflexivity.
Qed.

Lemma startup_reload ns pl :
  Forall geometry_ok ns ->
  exists st,
    StickyNotesApp_init
      (fresh_process (Some (Document (VList (map note_record ns)))) pl) =
    (Ok tt, mkWorld (reloaded pl 0 ns) (List.length ns) st true "" pl).
Proof.
  intros Hg. unfold StickyNotesApp_init, load_notes.
  unfold bind at 1. unfold modify at 1. unfold bind at 1. unfold get at 1.
  cbn [store set_app fresh_process]. simpl json_load. simpl lift.
  rewrite bind_ret. simpl py_iter. simpl lift. rewrite bind_ret.
  match goal with |- context [for_each _ _ ?w1] =>
    destruct (for_each_reload ns w1) as [st H] end.
  - constructor.
  - exact Hg.
  - exists st. rewrite H. reflexivity.
Qed.

Lemma note_record_is_record n : is_record (note_record n).
Proof. eexists. split; reflexivity. Qed.

Lemma records_are_records w : Forall is_record (records w).
Proof.
  unfold records. apply Forall_map. apply Forall_forall.
  intros n _. apply note_record_is_record.
Qed.

Lemma shaped_session f evs : preserves (shaped_or f) (session evs).
Proof.
  apply inv_session; unfold shaped_or; simpl; auto.
  intros w _. right. eexists. split; [reflexivity | apply records_are_records].
Qed.

Lemma text_changed_spec w self s :
  sticky_notes_app w = true ->
  text_changed self s w =
  (Ok tt, mkWorld (update_note self (set_text s) (notes w)) (next_id w)
            (Some (Document (VList (map note_record
                                        (update_note self (set_text s) (notes w))))))
            true (clipboard w) (placement w)).
Proof.
  intros Happ. unfold text_changed, on_text_changed, save_notes.
  unfold bind, modify_note, modify, get. simpl. rewrite Happ. simpl.
  unfold set_store, set_notes. simpl. rewrite Happ. reflexivity.
Qed.

Lemma create_note_safe_blank v w :
  truthy v = false ->
  fst (create_note_safe v None None w) = Ok tt /\
  store (exec (create_note_safe v None None) w) = store w /\
  List.length (notes (exec (create_note_safe v None None) w)) =
    S (List.length (notes w)).
Proof.
  intros Hv. unfold exec, create_note_safe, StickyNote_init. rewrite Hv.
  unfold bind, get, modify, ret, QWidget_resize, QWidget_show, modify_note,
         bind, get, modify. simpl.
  repeat split. rewrite !update_note_length, List.length_app. simpl. lia.
Qed.

Lemma keeps_store_modify_note (b : option FileContent) self f :
  preserves (fun w => store w = b) (modify_note self f).
Proof. intros w H. exact H. Qed.

(** No mouse handler touches the file. *)
Lemma mouse_handlers_frame_store self e :
  frames store (mousePressEvent self e) /\
  frames store (mouseMoveEvent self e) /\
  frames store (mouseReleaseEvent self e).
Proof.
  split; [| split]; apply frames_preserves; intro b.
  - unfold mousePressEvent, copy_with_feedback.
    repeat pres_step; try apply keeps_store_modify_note.
    apply preserves_modify. auto.
  - unfold mouseMoveEvent, QWidget_resize, QWidget_move. pres_step.
    destruct (_start_pos n), (_start_size n); repeat pres_step;
      try apply keeps_store_modify_note.
  - apply keeps_store_modify_note.
Qed.

(** Once [StickyNotesApp.__init__] has set the attribute it stays. *)
Lemma app_attribute_session evs w :
  sticky_notes_app (exec (session evs) w) = true.
Proof.
  unfold session, StickyNotesApp_init.
  assert (H : preserves (fun w => sticky_notes_app w = true)
                        (load_notes ;; event_loop evs)).
  { apply preserves_bind; [apply inv_load_notes | intros _; apply inv_event_loop]; auto. }
  unfold exec. unfold bind at 1. unfold bind at 1. unfold modify at 1.
  specialize (H (set_app true w) eq_refl). unfold exec, bind in H.
  destruct (load_notes (set_app true w)) as [[[] | e] w1]; exact H.
Qed.

(** Discharges [geometry_ok] and the like on concrete notes. *)
(** ** Gestures with the cursor at whole pixels *)

Lemma py_int_sub a b : py_int (inject_Z a - inject_Z b)%Q = a - b.
Proof.
  unfold py_int, Qminus, Qplus, Qopp, inject_Z. simpl.
  rewrite Z.quot_1_r. ring.
Qed.

Lemma py_int_grow s a b m :
  py_int (py_max (inject_Z s + (inject_Z a - inject_Z b))%Q (inject_Z m)) =
  Z.max (s + (a - b)) m.
Proof.
  unfold py_max, Qgtb, Qle_bool, py_int, Qminus, Qplus, Qopp, inject_Z. simpl.
  destruct (Z.leb_spec (m * 1) ((s * 1 + (a * 1 + - b * 1) * 1) * 1)); simpl;
    rewrite Z.quot_1_r; lia.
Qed.

Lemma plain_left_split e :
  plain_left e = true ->
  is_LeftButton (button e) = true /\ is_ControlModifier (modifiers e) = false.
Proof.
  unfold plain_left. intros H. apply andb_true_iff in H. destruct H as [H1 H2].
  split; [exact H1 | apply negb_true_iff, H2].
Qed.

Lemma press_drag_world w self n e :
  find_note self (notes w) = Some n -> plain_left e = true ->
  in_corner n (position e) = false ->
  mousePressEvent self e w =
  (Ok tt, set_notes (update_note self (fun m =>
             set_gesture true (_resizing m) (Some (position e)) (_start_size m) m)
             (notes w)) w).
Proof.
  intros Hf Hp Hc. apply plain_left_split in Hp. destruct Hp as [Hl Hm].
  unfold mousePressEvent, on. rewrite Hf, Hl, Hm, Hc. reflexivity.
Qed.

Lemma press_resize_world w self n e :
  find_note self (notes w) = Some n -> plain_left e = true ->
  in_corner n (position e) = true ->
  mousePressEvent self e w =
  (Ok tt, set_notes (update_note self (fun m =>
             set_gesture (_dragging m) true (Some (position e))
                         (Some (width m, height m)) m)
             (notes w)) w).
Proof.
  intros Hf Hp Hc. apply plain_left_split in Hp. destruct Hp as [Hl Hm].
  unfold mousePressEvent, on. rewrite Hf, Hl, Hm, Hc. reflexivity.
Qed.

Lemma update_note_absorb self f g l :
  (forall m, nid (f m) = nid m) -> (forall m, g (f m) = g m) ->
  update_note self g (update_note self f l) = update_note self g l.
Proof.
  intros Hn Hg. unfold update_note. rewrite map_map. apply map_ext.
  intros m. destruct (Nat.eqb (nid m) self) eqn:E.
  - rewrite Hn, E. apply Hg.
  - rewrite E. reflexivity.
Qed.

Lemma move_while_resizing w self n p ss e :
  find_note self (notes w) = Some n ->
  _resizing n = true -> _start_pos n = Some p -> _start_size n = Some ss ->
  mouseMoveEvent self e w =
  QWidget_resize self
    (py_int (py_max (inject_Z (fst ss) + fst (QPointF_sub (position e) p))%Q
                    (inject_Z (minimumWidth n))))
    (py_int (py_max (inject_Z (snd ss) + snd (QPointF_sub (position e) p))%Q
                    (inject_Z (minimumHeight n)))) w.
Proof.
  intros Hf Hr Hp Hs. unfold mouseMoveEvent, on. rewrite Hf, Hr, Hp, Hs.
  reflexivity.
Qed.

Lemma move_while_dragging w self n p e :
  find_note self (notes w) = Some n ->
  _resizing n = false -> _dragging n = true -> _start_pos n = Some p ->
  mouseMoveEvent self e w =
  QWidget_move self (x n + py_int (fst (QPointF_sub (position e) p)))
                    (y n + py_int (snd (QPointF_sub (position e) p))) w.
Proof.
  intros Hf Hr Hd Hp. unfold mouseMoveEvent, on. rewrite Hf, Hr, Hd, Hp.
  reflexivity.
Qed.

Lemma release_keeps w self n e :
  find_note self (notes w) = Some n ->
  find_note self (notes (exec (mouseReleaseEvent self e) w)) =
  Some (set_gesture false false None None n).
Proof.
  intros Hf. unfold exec, mouseReleaseEvent, modify_note, modify. simpl.
  rewrite find_update_note by reflexivity. rewrite Hf. reflexivity.
Qed.

Lemma mouse_handlers_frame_ids self e :
  frames ids (mousePressEvent self e) /\
  frames ids (mouseMoveEvent self e) /\
  frames ids (mouseReleaseEvent self e).
Proof.
  assert (Hn : forall b self f w, benign f -> ids w = b ->
               ids (set_notes (update_note self f (notes w)) w) = b).
  { intros b s f w Hf H. unfold ids in *. simpl.
    rewrite update_note_ids; [exact H | apply Hf]. }
  split; [| split]; apply frames_preserves; intro b.
  - apply inv_mousePressEvent; [apply Hn | intros s w H; exact H].
  - apply inv_mouseMoveEvent. apply Hn.
  - apply inv_mouseReleaseEvent. apply Hn.
Qed.

(** Press, move and release leave the file and the identities of the
    open notes as they were. *)
Lemma gesture_frames w self e1 e2 e3 :
  let w3 := exec (mouseReleaseEvent self e3)
              (exec (mouseMoveEvent self e2) (exec (mousePressEvent self e1) w)) in
  store w3 = store w /\ ids w3 = ids w.
Proof.
  cbv zeta. split.
  - rewrite (proj2 (proj2 (mouse_handlers_frame_store self e3))).
    rewrite (proj1 (proj2 (mouse_handlers_frame_store self e2))).
    apply (proj1 (mouse_handlers_frame_store self e1)).
  - rewrite (proj2 (proj2 (mouse_handlers_frame_ids self e3))).
    rewrite (proj1 (proj2 (mouse_handlers_frame_ids self e2))).
    apply (proj1 (mouse_handlers_frame_ids self e1)).
Qed.

Lemma same_records_same_note self : forall l l' n n',
  map note_record l' = map note_record l -> map nid l' = map nid l ->
  find_note self l = Some n -> find_note self l' = Some n' ->
  note_record n' = note_record n.
Proof.
  unfold find_note. induction l as [| m r IH]; intros l' n n' Hr Hi Hf Hf'.
  - discriminate.
  - destruct l' as [| m' r']; [discriminate |].
    pose proof (f_equal (hd VNone) Hr) as Hr1. pose proof (f_equal (@tl _) Hr) as Hr2.
    pose proof (f_equal (hd 0%nat) Hi) as Hi1. pose proof (f_equal (@tl _) Hi) as Hi2.
    simpl in Hr1, Hr2, Hi1, Hi2, Hf, Hf'.
    rewrite Hi1 in Hf'. destruct (Nat.eqb (nid m) self).
    + injection Hf as <-. injection Hf' as <-. exact Hr1.
    + apply (IH r' n n'); assumption.
Qed.

(** A file that held the record of a note does not hold the records of
    the open notes once that note's record has changed and the file
    has not. *)
Lemma stale_after self w w3 n n3 :
  store w3 = store w -> ids w3 = ids w ->
  find_note self (notes w) = Some n -> find_note self (notes w3) = Some n3 ->
  note_record n3 <> note_record n ->
  store_in_sync w -> ~ store_in_sync w3.
Proof.
  intros Hs Hi Hf Hf3 Hne Hsync Hsync3. apply Hne.
  unfold store_in_sync in *. rewrite Hs, Hsync in Hsync3.
  injection Hsync3 as Hr. unfold records in Hr.
  apply (same_records_same_note self (notes w) (notes w3)); auto.
Qed.

(** A drag, from the press to the release. *)
Lemma drag_pixel w self n e1 e2 e3 a1 b1 a2 b2 :
  find_note self (notes w) = Some n -> idle n ->
  plain_left e1 = true -> in_corner n (position e1) = false ->
  at_pixel e1 a1 b1 -> at_pixel e2 a2 b2 ->
  in_int (x n + (a2 - a1)) = true -> in_int (y n + (b2 - b1)) = true ->
  let w1 := exec (mousePressEvent self e1) w in
  let w2 := exec (mouseMoveEvent self e2) w1 in
  let w3 := exec (mouseReleaseEvent self e3) w2 in
  fst (mousePressEvent self e1 w) = Ok tt /\
  fst (mouseMoveEvent self e2 w1) = Ok tt /\
  (exists n2, find_note self (notes w2) = Some n2 /\
     x n2 = x n + (a2 - a1) /\ y n2 = y n + (b2 - b1) /\
     width n2 = width n /\ height n2 = height n /\ text n2 = text n) /\
  (exists n3, find_note self (notes w3) = Some n3 /\
     x n3 = x n + (a2 - a1) /\ y n3 = y n + (b2 - b1) /\
     width n3 = width n /\ height n3 = height n /\ text n3 = text n /\ idle n3) /\
  store w3 = store w /\
  ((a2, b2) <> (a1, b1) -> store_in_sync w -> ~ store_in_sync w3).
Proof.
  intros Hf [Hd Hr] Hp Hc (P1 & _ & _) (P2 & _ & _) Hx Hy w1 w2 w3.
  assert (Hf1 : find_note self (notes w1) =
                Some (set_gesture true (_resizing n) (Some (position e1))
                                  (_start_size n) n)).
  { subst w1. unfold exec. rewrite (press_drag_world w self n e1 Hf Hp Hc).
    cbn [snd notes set_notes]. rewrite find_update_note by reflexivity.
    rewrite Hf. reflexivity. }
  assert (Hmove : mouseMoveEvent self e2 w1 =
                  QWidget_move self (x n + (a2 - a1)) (y n + (b2 - b1)) w1).
  { rewrite (move_while_dragging w1 self _ (position e1) e2 Hf1 Hr eq_refl eq_refl).
    rewrite P1, P2. unfold QPointF_sub. cbn [fst snd x y set_gesture].
    rewrite !py_int_sub. reflexivity. }
  assert (Hf2 : find_note self (notes w2) =
                Some (set_pos (x n + (a2 - a1)) (y n + (b2 - b1))
                        (set_gesture true (_resizing n) (Some (position e1))
                                     (_start_size n) n))).
  { subst w2. unfold exec. rewrite Hmove. unfold QWidget_move. rewrite Hx, Hy.
    cbn [andb]. unfold modify_note, modify. cbn [snd notes set_notes].
    rewrite find_update_note by reflexivity. rewrite Hf1. reflexivity. }
  pose proof (release_keeps w2 self _ e3 Hf2) as Hf3. fold w3 in Hf3.
  destruct (gesture_frames w self e1 e2 e3) as [Hs Hi]. fold w1 w2 w3 in Hs, Hi.
  split.
  { rewrite (press_drag_world w self n e1 Hf Hp Hc). reflexivity. }
  split.
  { rewrite Hmove. unfold QWidget_move. rewrite Hx, Hy. reflexivity. }
  split.
  { eexists. split; [exact Hf2 |]. cbn. repeat split; reflexivity. }
  split.
  { eexists. split; [exact Hf3 |]. cbn. repeat split; reflexivity. }
  split; [exact Hs |].
  intros Hne. apply (stale_after self w w3 n _ Hs Hi Hf Hf3).
  unfold note_record. cbn. intros E. apply Hne.
  injection E as Ex Ey. f_equal; lia.
Qed.

(** A resize, from the press to the release; a move of the gesture
    leaves no trace in what a later move of it does. *)
Lemma resize_pixel w self n e1 e2 e3 a1 b1 a2 b2 :
  find_note self (notes w) = Some n -> idle n ->
  plain_left e1 = true -> in_corner n (position e1) = true ->
  at_pixel e1 a1 b1 -> at_pixel e2 a2 b2 ->
  let c := Z.max (width n + (a2 - a1)) 100 in
  let d := Z.max (height n + (b2 - b1)) 100 in
  in_int c = true -> in_int d = true ->
  let w1 := exec (mousePressEvent self e1) w in
  let w2 := exec (mouseMoveEvent self e2) w1 in
  let w3 := exec (mouseReleaseEvent self e3) w2 in
  fst (mousePressEvent self e1 w) = Ok tt /\
  fst (mouseMoveEvent self e2 w1) = Ok tt /\
  (exists n2, find_note self (notes w2) = Some n2 /\
     width n2 = Z.min c QWIDGETSIZE_MAX /\ height n2 = Z.min d QWIDGETSIZE_MAX /\
     x n2 = x n /\ y n2 = y n /\ text n2 = text n) /\
  (exists n3, find_note self (notes w3) = Some n3 /\
     width n3 = Z.min c QWIDGETSIZE_MAX /\ height n3 = Z.min d QWIDGETSIZE_MAX /\
     x n3 = x n /\ y n3 = y n /\ text n3 = text n /\ idle n3) /\
  store w3 = store w /\
  ((Z.min c QWIDGETSIZE_MAX, Z.min d QWIDGETSIZE_MAX) <> (width n, height n) ->
   store_in_sync w -> ~ store_in_sync w3) /\
  (forall e4 a4 b4, at_pixel e4 a4 b4 ->
     fst (mouseMoveEvent self e4 w1) = Ok tt ->
     notes (exec (mouseMoveEvent self e4) w2) = notes (exec (mouseMoveEvent self e4) w1)).
Proof.
  intros Hf [Hd Hr] Hp Hc (P1 & _ & _) (P2 & _ & _) c d Hcw Hdh w1 w2 w3.
  set (n1 := set_gesture (_dragging n) true (Some (position e1))
                         (Some (width n, height n)) n).
  assert (Hf1 : find_note self (notes w1) = Some n1).
  { subst w1. unfold exec. rewrite (press_resize_world w self n e1 Hf Hp Hc).
    cbn [snd notes set_notes]. rewrite find_update_note by reflexivity.
    rewrite Hf. reflexivity. }
  assert (Hmove : forall w' e a b,
    find_note self (notes w') = Some n1 \/
    find_note self (notes w') =
      Some (set_size (bounded 100 c) (bounded 100 d) n1) ->
    position e = (inject_Z a, inject_Z b) ->
    mouseMoveEvent self e w' =
    QWidget_resize self (Z.max (width n + (a - a1)) 100)
                        (Z.max (height n + (b - b1)) 100) w').
  { intros w' e a b [Hw' | Hw'] Pe;
      rewrite (move_while_resizing w' self _ (position e1) (width n, height n) e Hw'
                 eq_refl eq_refl eq_refl);
      rewrite P1, Pe; unfold QPointF_sub, minimumWidth, minimumHeight;
      cbn [fst snd]; rewrite !py_int_grow; reflexivity. }
  assert (Hw2 : w2 = set_notes (update_note self
                      (fun m => set_size (bounded (minimumWidth m) c)
                                         (bounded (minimumHeight m) d) m)
                      (notes w1)) w1).
  { subst w2. unfold exec. rewrite (Hmove w1 e2 a2 b2 (or_introl Hf1) P2).
    fold c d. unfold QWidget_resize. rewrite Hcw, Hdh. reflexivity. }
  assert (Hf2 : find_note self (notes w2) =
                Some (set_size (bounded 100 c) (bounded 100 d) n1)).
  { rewrite Hw2. cbn [notes set_notes]. rewrite find_update_note by reflexivity.
    rewrite Hf1. reflexivity. }
  pose proof (release_keeps w2 self _ e3 Hf2) as Hf3. fold w3 in Hf3.
  destruct (gesture_frames w self e1 e2 e3) as [Hs Hi]. fold w1 w2 w3 in Hs, Hi.
  assert (Hbc : bounded 100 c = Z.min c QWIDGETSIZE_MAX).
  { unfold bounded, QWIDGETSIZE_MAX. subst c. lia. }
  assert (Hbd : bounded 100 d = Z.min d QWIDGETSIZE_MAX).
  { unfold bounded, QWIDGETSIZE_MAX. subst d. lia. }
  split.
  { rewrite (press_resize_world w self n e1 Hf Hp Hc). reflexivity. }
  split.
  { rewrite (Hmove w1 e2 a2 b2 (or_introl Hf1) P2). fold c d.
    unfold QWidget_resize. rewrite Hcw, Hdh. reflexivity. }
  split.
  { eexists. split; [exact Hf2 |]. cbn. rewrite Hbc, Hbd. repeat split; reflexivity. }
  split.
  { eexists. split; [exact Hf3 |]. cbn. rewrite Hbc, Hbd. repeat split; reflexivity. }
  split; [exact Hs |]. split.
  - intros Hne. apply (stale_after self w w3 n _ Hs Hi Hf Hf3).
    unfold note_record. cbn. rewrite Hbc, Hbd. intros E. apply Hne.
    injection E as Ew Eh. f_equal; assumption.
  - intros e4 a4 b4 (P4 & _ & _) Hok.
    rewrite (Hmove w1 e4 a4 b4 (or_introl Hf1) P4) in Hok.
    unfold exec. rewrite (Hmove w2 e4 a4 b4 (or_intror Hf2) P4).
    rewrite (Hmove w1 e4 a4 b4 (or_introl Hf1) P4).
    unfold QWidget_resize in *.
    match goal with |- context [in_int ?a && in_int ?b] =>
      destruct (in_int a && in_int b) end.
    + unfold modify_note, modify. cbn [snd notes set_notes]. rewrite Hw2.
      cbn [notes set_notes]. apply update_note_absorb; intros m; reflexivity.
    + discriminate Hok.
Qed.

(** ** Removing one note from a list without duplicates *)

Lemma filter_keep {A} (f : A -> bool) (l : list A) :
  (forall m, In m l -> f m = true) -> filter f l = l.
Proof.
  induction l as [| a r IH]; intros H; [reflexivity |].
  simpl. rewrite (H a (or_introl eq_refl)). f_equal. apply IH.
  intros m Hm. apply H. right. exact Hm.
Qed.

Lemma filter_out_one (a b : list StickyNote) (n : StickyNote) :
  NoDup (map nid (a ++ n :: b)) ->
  filter (fun m => negb (Nat.eqb (nid m) (nid n))) (a ++ n :: b) = a ++ b.
Proof.
  intros Hnd. rewrite map_app in Hnd. simpl in Hnd.
  apply NoDup_remove_2 in Hnd.
  assert (Hk : forall l, (forall m, In m l -> In (nid m) (map nid a ++ map nid b)) ->
               filter (fun m => negb (Nat.eqb (nid m) (nid n))) l = l).
  { intros l Hl. apply filter_keep. intros m Hm.
    apply negb_true_iff, Nat.eqb_neq. intros E. apply Hnd. rewrite <- E.
    apply Hl, Hm. }
  rewrite filter_app. simpl. rewrite Nat.eqb_refl. simpl. f_equal.
  - apply Hk. intros m Hm. apply in_or_app. left. apply in_map, Hm.
  - apply Hk. intros m Hm. apply in_or_app. right. apply in_map, Hm.
Qed.

Ltac geometry :=
  repeat constructor; try reflexivity;
  try (unfold QWIDGETSIZE_MAX; simpl; lia).

(** * The claims *)

(** ** C1: saving and reloading *)

(** C1, at the input where the code breaks it. The claim: saving the
    notes with [save_notes] and reloading them with [load_notes]
    reproduces every note with the same text, x, y, width and height.
    [create_note_safe] guards the move with [if pos:], and
    [QPoint(0, 0)] is false: a note saved at the origin of the screen
    is never moved back and stays where the window system put it.
    Here the note is saved at (0, 0) and comes back at (26, 26). *)
Theorem roundtrip_moves_note_at_origin :
  let saved := exec save_notes corner_desk in
  let reloaded := StickyNotesApp_init (fresh_process (store saved) cascade) in
  geometry_ok corner_note /\
  store saved =
    Some (Document (VList
      [VDict [("text", VStr "memo"); ("x", VInt 0); ("y", VInt 0);
              ("width", VInt 200); ("height", VInt 200)]])) /\
  fst reloaded = Ok tt /\
  records (snd reloaded) =
    [VDict [("text", VStr "memo"); ("x", VInt 26); ("y", VInt 26);
            ("width", VInt 200); ("height", VInt 200)]] /\
  records (snd reloaded) <> records corner_desk.
Proof.
  cbv zeta. split; [geometry |]. split; [reflexivity |]. split; [reflexivity |].
  split; [reflexivity |]. vm_compute. discriminate.
Qed.

(** X1. Away from the origin the round trip holds: when every note has
    a geometry Qt can report and none sits at (0, 0), saving the notes
    and starting a fresh process on the file returns normally with
    notes that have the same records, in the same order. *)
Theorem save_load_roundtrip w pl :
  Forall geometry_ok (notes w) ->
  Forall (fun n => at_origin n = false) (notes w) ->
  let saved := store (exec save_notes w) in
  let r := StickyNotesApp_init (fresh_process saved pl) in
  fst r = Ok tt /\ records (snd r) = records w.
Proof.
  intros Hg Ho. cbv zeta.
  destruct (startup_reload (notes w) pl Hg) as [st H].
  change (store (exec save_notes w))
    with (Some (Document (VList (map note_record (notes w))))).
  rewrite H. split; [reflexivity |].
  unfold records. cbn [snd notes]. apply reloaded_records, Ho.
Qed.

Lemma save_load_roundtrip_witness :
  records (snd (StickyNotesApp_init
                  (fresh_process (store (exec save_notes desk2)) cascade))) =
  records desk2.
Proof.
  apply (save_load_roundtrip desk2 cascade).
  - geometry.
  - repeat constructor.
Defined.

(** ** C2: a text change rewrites the file *)

(** C2. In every session the application object carries the attribute
    [on_text_changed] tests. Then a change of the text of an open note
    returns normally, changes that note's text only, and leaves in the
    file the list of the records of all open notes, the edited one
    with its new text: as many records as notes. *)
Theorem text_change_rewrites_store :
  (forall f pl evs,
     sticky_notes_app (exec (session evs) (fresh_process f pl)) = true) /\
  (forall w self n s,
     sticky_notes_app w = true ->
     find_note self (notes w) = Some n ->
     let r := dispatch (TextEdited self s) w in
     fst r = Ok tt /\
     notes (snd r) = update_note self (set_text s) (notes w) /\
     find_note self (notes (snd r)) = Some (set_text s n) /\
     store (snd r) = Some (Document (VList (map note_record (notes (snd r))))) /\
     List.length (records (snd r)) = List.length (notes (snd r))).
Proof.
  split; [intros f pl evs; apply app_attribute_session |].
  intros w self n s Happ Hf. cbv zeta. simpl dispatch. unfold on. rewrite Hf.
  rewrite (text_changed_spec w self s Happ). cbn [fst snd notes store].
  split; [reflexivity |]. split; [reflexivity |]. split.
  - rewrite find_update_note by reflexivity. rewrite Hf. reflexivity.
  - split; [reflexivity |]. unfold records. apply List.length_map.
Qed.

Lemma text_change_rewrites_store_witness :
  store (exec (dispatch (TextEdited 0 "milk")) desk) =
  Some (Document (VList
    [VDict [("text", VStr "milk"); ("x", VInt 300); ("y", VInt 300);
            ("width", VInt 200); ("height", VInt 200)]])).
Proof.
  destruct (proj2 text_change_rewrites_store desk 0%nat memo "milk" eq_refl eq_refl)
    as (_ & _ & _ & H & _).
  exact H.
Defined.

(** ** C3: what a drag or a resize leaves in the file *)

(** C3 fails as stated: a saved note at (300, 300) is dragged by its
    toolbar, the cursor going from (100, 20) to (110, 30). Press, move
    and release return normally and the note is at (310, 310); the
    file is what it was, and still gives x = 300 and y = 300. *)
Lemma toolbar_drag_leaves_store_stale :
  store desk =
    Some (Document (VList
      [VDict [("text", VStr "memo"); ("x", VInt 300); ("y", VInt 300);
              ("width", VInt 200); ("height", VInt 200)]])) /\
  fst (event_loop (toolbar_drag 0) desk) = Ok tt /\
  notes (exec (event_loop (toolbar_drag 0)) desk) =
    [mkNote 0 "memo" 310 310 200 200 false false None None] /\
  store (exec (event_loop (toolbar_drag 0)) desk) = store desk.
Proof.
  split; [reflexivity |]. split; [reflexivity |]. split; reflexivity.
Qed.

(** C3, amended. A change of the text of a note rewrites the file, which
    then holds one record per open note with that note's text, x, y,
    width and height; the attribute [on_text_changed] tests is there
    in every session. A drag or a resize does not: no mouse handler
    writes the file. With the cursor at whole pixels and on a note with
    no gesture in progress, a plain left press outside the corner, a
    move and a release leave the note moved by the displacement of the
    cursor, when that is a position of C integers; a press in the
    corner, a move and a release leave it with its size grown by that
    displacement, no less than 100 and no more than Qt's maximum.
    Either way the file after the release is the file before the
    press: a file that held the records of the open notes no longer
    does, unless the geometry came out as it was. *)
Theorem gestures_change_notes_not_store w self n :
  find_note self (notes w) = Some n -> idle n ->
  let dict_of := fun m : StickyNote =>
    VDict [("text", VStr (text m)); ("x", VInt (x m)); ("y", VInt (y m));
           ("width", VInt (width m)); ("height", VInt (height m))] in
  let up_to_date := fun w0 : World =>
    store w0 = Some (Document (VList (map dict_of (notes w0)))) in
  let gesture := fun e1 e2 e3 : QMouseEvent =>
    exec (mouseReleaseEvent self e3)
         (exec (mouseMoveEvent self e2) (exec (mousePressEvent self e1) w)) in
  (forall f pl evs,
     sticky_notes_app (exec (session evs) (fresh_process f pl)) = true) /\
  (forall s, sticky_notes_app w = true ->
     let w' := exec (dispatch (TextEdited self s)) w in
     fst (dispatch (TextEdited self s) w) = Ok tt /\
     find_note self (notes w') = Some (set_text s n) /\ up_to_date w') /\
  (forall w0 e,
     store (exec (mousePressEvent self e) w0) = store w0 /\
     store (exec (mouseMoveEvent self e) w0) = store w0 /\
     store (exec (mouseReleaseEvent self e) w0) = store w0) /\
  (forall e1 e2 e3 a1 b1 a2 b2,
     plain_left e1 = true -> in_corner n (position e1) = false ->
     at_pixel e1 a1 b1 -> at_pixel e2 a2 b2 ->
     in_int (x n + (a2 - a1)) = true -> in_int (y n + (b2 - b1)) = true ->
     fst (mousePressEvent self e1 w) = Ok tt /\
     fst (mouseMoveEvent self e2 (exec (mousePressEvent self e1) w)) = Ok tt /\
     (exists n3,
        find_note self (notes (gesture e1 e2 e3)) = Some n3 /\
        x n3 = x n + (a2 - a1) /\ y n3 = y n + (b2 - b1) /\
        width n3 = width n /\ height n3 = height n /\ text n3 = text n /\
        idle n3) /\
     store (gesture e1 e2 e3) = store w /\
     ((a2, b2) <> (a1, b1) -> up_to_date w -> ~ up_to_date (gesture e1 e2 e3))) /\
  (forall e1 e2 e3 a1 b1 a2 b2,
     plain_left e1 = true -> in_corner n (position e1) = true ->
     at_pixel e1 a1 b1 -> at_pixel e2 a2 b2 ->
     let c := Z.max (width n + (a2 - a1)) 100 in
     let d := Z.max (height n + (b2 - b1)) 100 in
     in_int c = true -> in_int d = true ->
     fst (mousePressEvent self e1 w) = Ok tt /\
     fst (mouseMoveEvent self e2 (exec (mousePressEvent self e1) w)) = Ok tt /\
     (exists n3,
        find_note self (notes (gesture e1 e2 e3)) = Some n3 /\
        width n3 = Z.min c QWIDGETSIZE_MAX /\ height n3 = Z.min d QWIDGETSIZE_MAX /\
        x n3 = x n /\ y n3 = y n /\ text n3 = text n /\
        idle n3) /\
     store (gesture e1 e2 e3) = store w /\
     ((Z.min c QWIDGETSIZE_MAX, Z.min d QWIDGETSIZE_MAX) <> (width n, height n) ->
      up_to_date w -> ~ up_to_date (gesture e1 e2 e3))).
Proof.
  intros Hf Hidle dict_of up_to_date gesture.
  split; [intros f pl evs; apply app_attribute_session |].
  split; [| split; [| split]].
  - intros s Happ w'. subst w' up_to_date. unfold exec. simpl dispatch. unfold on.
    rewrite Hf, (text_changed_spec w self s Happ). cbn [fst snd notes store].
    split; [reflexivity |]. split.
    + rewrite find_update_note by reflexivity. rewrite Hf. reflexivity.
    + reflexivity.
  - intros w0 e. destruct (mouse_handlers_frame_store self e) as (H1 & H2 & H3).
    split; [apply H1 |]. split; [apply H2 | apply H3].
  - intros e1 e2 e3 a1 b1 a2 b2 Hp Hc P1 P2 Hx Hy.
    destruct (drag_pixel w self n e1 e2 e3 a1 b1 a2 b2 Hf Hidle Hp Hc P1 P2 Hx Hy)
      as (H1 & H2 & _ & H3 & Hs & Hstale).
    split; [exact H1 |]. split; [exact H2 |]. split; [exact H3 |].
    split; [exact Hs | exact Hstale].
  - intros e1 e2 e3 a1 b1 a2 b2 Hp Hc P1 P2 c d Hcw Hdh.
    destruct (resize_pixel w self n e1 e2 e3 a1 b1 a2 b2 Hf Hidle Hp Hc P1 P2 Hcw Hdh)
      as (H1 & H2 & _ & H3 & Hs & Hstale & _).
    split; [exact H1 |]. split; [exact H2 |]. split; [exact H3 |].
    split; [exact Hs | exact Hstale].
Qed.

Lemma gestures_change_notes_not_store_witness :
  store (exec (dispatch (TextEdited 0 "milk")) desk) =
    Some (Document (VList
      [VDict [("text", VStr "milk"); ("x", VInt 300); ("y", VInt 300);
              ("width", VInt 200); ("height", VInt 200)]])) /\
  (exists n3,
     find_note 0 (notes (exec (event_loop (toolbar_drag 0)) desk)) = Some n3 /\
     x n3 = 310 /\ y n3 = 310 /\ width n3 = 200 /\ height n3 = 200) /\
  store (exec (event_loop (toolbar_drag 0)) desk) =
    Some (Document (VList
      [VDict [("text", VStr "memo"); ("x", VInt 300); ("y", VInt 300);
              ("width", VInt 200); ("height", VInt 200)]])) /\
  (exists n3,
     find_note 0 (notes (exec (event_loop (corner_resize 0)) desk)) = Some n3 /\
     x n3 = 300 /\ y n3 = 300 /\ width n3 = 270 /\ height n3 = 260) /\
  store (exec (event_loop (corner_resize 0)) desk) =
    Some (Document (VList
      [VDict [("text", VStr "memo"); ("x", VInt 300); ("y", VInt 300);
              ("width", VInt 200); ("height", VInt 200)]])).
Proof.
  destruct (gestures_change_notes_not_store desk 0%nat memo eq_refl (conj eq_refl eq_refl))
    as (_ & Hkey & _ & Hdrag & Hresize).
  destruct (Hdrag (left_at 100 20) (left_at 110 30) (left_at 110 30) 100 20 110 30
              eq_refl eq_refl (conj eq_refl (conj eq_refl eq_refl))
              (conj eq_refl (conj eq_refl eq_refl)) eq_refl eq_refl)
    as (_ & _ & (n3 & Hf3 & Hx & Hy & Hw & Hh & _) & Hs & _).
  destruct (Hresize (left_at 197 197) (left_at 267 257) (left_at 267 257)
              197 197 267 257
              eq_refl eq_refl (conj eq_refl (conj eq_refl eq_refl))
              (conj eq_refl (conj eq_refl eq_refl)) eq_refl eq_refl)
    as (_ & _ & (m3 & Hg3 & Hw' & Hh' & Hx' & Hy' & _) & Hs' & _).
  split; [exact (proj2 (proj2 (Hkey "milk" eq_refl))) |].
  split; [| split; [exact Hs | split; [| exact Hs']]].
  - exists n3. split; [exact Hf3 |]. split; [exact Hx |]. split; [exact Hy |].
    split; [exact Hw | exact Hh].
  - exists m3. split; [exact Hg3 |]. split; [exact Hx' |]. split; [exact Hy' |].
    split; [exact Hw' | exact Hh'].
Defined.

(** ** C4: deleting a note *)

(** C4 fails as stated: of two saved notes the second is dragged by its
    toolbar from (600, 80) to (610, 90), which leaves the file as it
    is; then the first note is closed. The file written holds the
    record of the second note with x = 610 and y = 90: the record of a
    note that was not closed has changed. *)
Lemma delete_note_changes_another_record :
  store (exec (event_loop (toolbar_drag 1)) desk2) =
    Some (Document (VList
      [VDict [("text", VStr "memo"); ("x", VInt 300); ("y", VInt 300);
              ("width", VInt 200); ("height", VInt 200)];
       VDict [("text", VStr "todo"); ("x", VInt 600); ("y", VInt 80);
              ("width", VInt 250); ("height", VInt 150)]])) /\
  fst (delete_note 0 (exec (event_loop (toolbar_drag 1)) desk2)) = Ok tt /\
  store (exec (delete_note 0) (exec (event_loop (toolbar_drag 1)) desk2)) =
    Some (Document (VList
      [VDict [("text", VStr "todo"); ("x", VInt 610); ("y", VInt 90);
              ("width", VInt 250); ("height", VInt 150)]])).
Proof.
  split; [reflexivity |]. split; reflexivity.
Qed.

(** C4, amended. Closing an open note returns normally. The list of
    open notes becomes the old list without that note, the others
    unchanged and in their order. The file is rewritten to one record
    per remaining note, in that order and nothing else, each with the
    current text, x, y, width and height of its note. When the file
    held the records of the open notes before, the new file is the old
    one with the record of the closed note taken out, the records
    before and after it as they were. *)
Theorem delete_note_rewrites_remaining w self n :
  sticky_notes_app w = true -> NoDup (ids w) -> In n (notes w) -> nid n = self ->
  let dict_of := fun m : StickyNote =>
    VDict [("text", VStr (text m)); ("x", VInt (x m)); ("y", VInt (y m));
           ("width", VInt (width m)); ("height", VInt (height m))] in
  let w' := exec (delete_note self) w in
  fst (delete_note self w) = Ok tt /\
  notes w' = filter (fun m => negb (Nat.eqb (nid m) self)) (notes w) /\
  (forall m, In m (notes w') <-> In m (notes w) /\ m <> n) /\
  store w' = Some (Document (VList (map dict_of (notes w')))) /\
  exists a b,
    notes w = a ++ n :: b /\ notes w' = a ++ b /\
    (store w = Some (Document (VList (map dict_of (notes w)))) ->
     store w = Some (Document (VList (map dict_of a ++ dict_of n :: map dict_of b))) /\
     store w' = Some (Document (VList (map dict_of a ++ map dict_of b)))).
Proof.
  intros Happ Hnd Hin Hn dict_of w'.
  destruct (list_remove_found self (notes w) n Hin Hn) as [l' Hl'].
  pose proof (list_remove_filter self _ _ Hnd Hl') as Hf.
  assert (Hw' : delete_note self w =
                (Ok tt, set_store (Some (Document (VList (map note_record l'))))
                                  (set_notes l' w))).
  { unfold delete_note, bind, get. simpl. rewrite Hl'. simpl.
    rewrite Happ. reflexivity. }
  assert (Hnotes : notes w' = l').
  { subst w'. unfold exec. rewrite Hw'. reflexivity. }
  assert (Hstore : store w' = Some (Document (VList (map dict_of (notes w'))))).
  { rewrite Hnotes. subst w'. unfold exec. rewrite Hw'. reflexivity. }
  split; [rewrite Hw'; reflexivity |].
  split; [rewrite Hnotes; exact Hf |]. split; [| split; [exact Hstore |]].
  - intros m. rewrite Hnotes, Hf, filter_In, negb_true_iff, Nat.eqb_neq. split.
    + intros [Hm Hne]. split; [exact Hm |]. intros ->. contradiction.
    + intros [Hm Hne]. split; [exact Hm |]. intros E. apply Hne.
      apply (nid_injective (notes w)); [exact Hnd | exact Hm | exact Hin |].
      rewrite Hn. exact E.
  - destruct (in_split n (notes w) Hin) as (a & b & Hab).
    assert (Hl : notes w' = a ++ b).
    { rewrite Hnotes, Hf, <- Hn, Hab. apply filter_out_one.
      unfold ids in Hnd. rewrite Hab in Hnd. exact Hnd. }
    exists a, b. split; [exact Hab |]. split; [exact Hl |].
    intros Hsync. split.
    + rewrite Hsync, Hab, map_app. reflexivity.
    + rewrite Hstore, Hl, map_app. reflexivity.
Qed.

Lemma delete_note_rewrites_remaining_witness :
  notes (exec (delete_note 0) desk2) = [todo] /\
  store (exec (delete_note 0) desk2) =
    Some (Document (VList
      [VDict [("text", VStr "todo"); ("x", VInt 600); ("y", VInt 80);
              ("width", VInt 250); ("height", VInt 150)]])).
Proof.
  assert (Hnd : NoDup (ids desk2)).
  { apply creation_order_NoDup. split; repeat constructor. }
  destruct (delete_note_rewrites_remaining desk2 0%nat memo eq_refl Hnd
              (or_introl eq_refl) eq_refl) as (_ & H2 & _ & H4 & _).
  split; [exact H2 |]. rewrite H4, H2. reflexivity.
Defined.

(** ** C5: the minimum size *)

(** C5. The size [mouseMoveEvent] asks for is at least 100 whatever the
    mouse delta; a mouse move keeps every note at least 100 wide and
    100 high; and in every session, from any file, after any events,
    every open note is at least 100 wide and 100 high. *)
Theorem minimum_size_floor :
  (forall q, 100 <= py_int (py_max q (inject_Z 100))) /\
  (forall w self e, floor_holds w -> floor_holds (exec (mouseMoveEvent self e) w)) /\
  (forall f pl evs, floor_holds (exec (session evs) (fresh_process f pl))).
Proof.
  split; [| split].
  - intros q. apply py_int_floor. lia.
  - intros w self e. apply (floor_dispatch (MouseMove self e)).
  - intros f pl evs. apply floor_invariant. constructor.
Qed.

Lemma minimum_size_floor_witness :
  floor_holds (exec (mouseMoveEvent 0 (left_at (-5000) (-5000))) resizing_desk) /\
  map (fun n => (width n, height n))
      (notes (exec (mouseMoveEvent 0 (left_at (-5000) (-5000))) resizing_desk)) =
  [(100, 100)].
Proof.
  split; [| reflexivity].
  apply (proj1 (proj2 minimum_size_floor)).
  constructor; [split; simpl; lia | constructor].
Defined.

(** ** C6: drag or resize *)

(** C6 fails as stated: a press with the right button, and a press
    with the left button while Control alone is held (which copies the
    text), enter neither state. *)
Lemma some_presses_enter_no_state :
  ~ enters_exactly_one desk 0 (right_at 50 50) /\
  ~ enters_exactly_one desk 0
      (mkMouse LeftButton control_only (inject_Z 50, inject_Z 50)).
Proof.
  split; intros (n' & Hf & Hx); vm_compute in Hf; injection Hf as <-;
    discriminate Hx.
Qed.

(** C6, amended. On a note with no gesture in progress, a press with
    the left button, unless Control alone is held, enters exactly one
    state: resizing when the cursor is within the 25px margin of the
    bottom-right corner, dragging otherwise; the position relative to
    that corner decides alone, the test against the toolbar height
    following from the minimum height. Any other press enters
    neither. A release clears both. *)
Theorem plain_left_press_enters_one_state w self n e :
  find_note self (notes w) = Some n ->
  _dragging n = false -> _resizing n = false -> 100 <= height n ->
  exists pressed,
    find_note self (notes (exec (mousePressEvent self e) w)) = Some pressed /\
    (if is_LeftButton (button e) && negb (is_ControlModifier (modifiers e))
     then _resizing pressed = near_corner n (position e) /\
          _dragging pressed = negb (near_corner n (position e))
     else _resizing pressed = false /\ _dragging pressed = false) /\
    (forall e', exists released,
       find_note self (notes (exec (mouseReleaseEvent self e')
                                   (exec (mousePressEvent self e) w))) = Some released /\
       _dragging released = false /\ _resizing released = false).
Proof.
  intros Hf Hd Hr Hh.
  destruct (press_spec w self n e Hf) as (pressed & Hp & Hstate).
  exists pressed. split; [exact Hp |]. split.
  - destruct (is_LeftButton (button e) && negb (is_ControlModifier (modifiers e))).
    + rewrite (in_corner_near n (position e) Hh) in Hstate.
      destruct (near_corner n (position e)); destruct Hstate as [H1 H2];
        rewrite H1, H2; auto.
    + destruct Hstate as [H1 H2]. rewrite H1, H2. auto.
  - intros e'.
    destruct (release_spec _ self pressed e' Hp) as (released & H1 & H2 & H3 & _).
    exists released. auto.
Qed.

Lemma plain_left_press_enters_one_state_witness :
  (exists pressed,
     find_note 0 (notes (exec (mousePressEvent 0 (left_at 190 190)) desk)) = Some pressed /\
     _resizing pressed = true /\ _dragging pressed = false) /\
  (exists pressed,
     find_note 0 (notes (exec (mousePressEvent 0 (left_at 50 50)) desk)) = Some pressed /\
     _resizing pressed = false /\ _dragging pressed = true).
Proof.
  split.
  - destruct (plain_left_press_enters_one_state desk 0 memo (left_at 190 190)
                eq_refl eq_refl eq_refl) as (p & H1 & H2 & _).
    + simpl. lia.
    + exists p. split; [exact H1 | exact H2].
  - destruct (plain_left_press_enters_one_state desk 0 memo (left_at 50 50)
                eq_refl eq_refl eq_refl) as (p & H1 & H2 & _).
    + simpl. lia.
    + exists p. split; [exact H1 | exact H2].
Defined.

(** ** C7: the "+" button *)

(** C7 fails as stated: with two notes open, "+" on the first one puts
    the new note 20px from the second, at (620, 100), not 20px from
    the note that was clicked. *)
Lemma plus_button_ignores_clicked_note :
  find_note 0 (notes desk2) = Some memo /\
  fst (dispatch (ClickNew 0) desk2) = Ok tt /\
  map (fun n => (nid n, x n, y n)) (notes (exec (dispatch (ClickNew 0)) desk2)) =
    [(0%nat, 300, 300); (1%nat, 600, 80); (2%nat, 620, 100)] /\
  ~ newest_offset_from memo (exec (dispatch (ClickNew 0)) desk2).
Proof.
  split; [reflexivity |]. split; [reflexivity |]. split; [reflexivity |].
  intros (pre & m & E & Hx & _).
  change (notes (exec (dispatch (ClickNew 0)) desk2))
    with ([memo; todo] ++ [mkNote 2 "" 620 100 200 200 false false None None]) in E.
  apply app_inj_tail in E. destruct E as [_ <-]. discriminate Hx.
Qed.

(** C7, amended. Whichever open note's "+" is clicked, the new note is
    blank, goes to the end of the list, and sits exactly 20px right of
    and 20px below the note that was last in the list (the note created
    most recently among the open ones). *)
Theorem plus_button_offsets_from_last_note w self clicked pre prev :
  creation_order w ->
  find_note self (notes w) = Some clicked ->
  notes w = pre ++ [prev] ->
  in_int (x prev + 20) = true -> in_int (y prev + 20) = true ->
  fst (dispatch (ClickNew self) w) = Ok tt /\
  notes (exec (dispatch (ClickNew self)) w) =
    notes w ++ [mkNote (next_id w) "" (x prev + 20) (y prev + 20) 200 200
                       false false None None] /\
  newest_offset_from prev (exec (dispatch (ClickNew self)) w).
Proof.
  intros Hw Hf E Hx Hy. unfold exec. simpl dispatch. unfold on. rewrite Hf.
  rewrite (create_new_note_spec w pre prev Hw E Hx Hy). cbn [fst snd notes].
  split; [reflexivity |]. split; [reflexivity |].
  eexists _, _. cbn [notes]. split; [reflexivity |]. split; reflexivity.
Qed.

Lemma plus_button_offsets_from_last_note_witness :
  newest_offset_from todo (exec (dispatch (ClickNew 0)) desk2).
Proof.
  apply (plus_button_offsets_from_last_note desk2 0 memo [memo] todo).
  - split; repeat constructor.
  - reflexivity.
  - reflexivity.
  - reflexivity.
  - reflexivity.
Defined.

(** ** C8: a malformed file *)

(** C8. Start-up raises, with no handler between the failure and the
    top of the program, when the file is not JSON
    ([JSONDecodeError]) and when it is a JSON array one of whose
    records lacks one of the keys text, x, y, width, height: no record
    is skipped and nothing is recovered. *)
Theorem malformed_store_raises_at_startup w :
  (store w = Some Malformed -> fst (StickyNotesApp_init w) = Raise JSONDecodeError) /\
  (forall l d k, store w = Some (Document (VList l)) -> In (VDict d) l ->
     In k five_keys -> dict_get d k = None -> raises StickyNotesApp_init w).
Proof.
  split.
  - intros H. unfold StickyNotesApp_init, load_notes, bind, modify, get. simpl.
    rewrite H. reflexivity.
  - intros l d k H Hin Hk Hd.
    unfold StickyNotesApp_init, load_notes. unfold raises.
    unfold bind at 1. unfold modify at 1. unfold bind at 1. unfold get at 1.
    cbn [store set_app]. rewrite H. simpl json_load. simpl lift. rewrite bind_ret.
    simpl py_iter. simpl lift. rewrite bind_ret.
    apply (for_each_raises load_one l (VDict d) Hin).
    intros w'. apply (load_one_missing_key d k); assumption.
Qed.

Lemma malformed_store_raises_at_startup_witness :
  fst (StickyNotesApp_init (fresh_process (Some Malformed) cascade)) =
    Raise JSONDecodeError /\
  raises StickyNotesApp_init
    (fresh_process (Some (Document (VList [note_record memo; broken_record]))) cascade).
Proof.
  split.
  - apply (proj1 (malformed_store_raises_at_startup
                    (fresh_process (Some Malformed) cascade))).
    reflexivity.
  - apply (proj2 (malformed_store_raises_at_startup
                    (fresh_process
                       (Some (Document (VList [note_record memo; broken_record])))
                       cascade))
                 [note_record memo; broken_record]
                 [("text", VStr "memo"); ("x", VInt 300); ("y", VInt 300);
                  ("width", VInt 200)]
                 "height").
    + reflexivity.
    + right. left. reflexivity.
    + simpl. auto 6.
    + reflexivity.
Defined.

(** ** C9: a new blank note *)

(** C9. A new note asked for by the hotkey or from the tray is created
    normally and adds one note to the list, and the file stays as it
    was: when the file held the records of the open notes before, it
    does not hold the new note's afterwards. *)
Theorem blank_note_leaves_store w ev :
  is_new_note_event ev = true ->
  fst (dispatch ev w) = Ok tt /\
  store (exec (dispatch ev) w) = store w /\
  List.length (notes (exec (dispatch ev) w)) = S (List.length (notes w)) /\
  (store_in_sync w -> ~ store_in_sync (exec (dispatch ev) w)).
Proof.
  intros Hev.
  assert (H : fst (dispatch ev w) = Ok tt /\
              store (exec (dispatch ev) w) = store w /\
              List.length (notes (exec (dispatch ev) w)) = S (List.length (notes w))).
  { destruct ev; try discriminate; simpl dispatch;
      apply create_note_safe_blank; reflexivity. }
  destruct H as (H1 & H2 & H3). repeat split; try assumption.
  unfold store_in_sync. intros Hs Hs'. rewrite H2, Hs in Hs'.
  injection Hs' as Hs'. apply (f_equal (@List.length value)) in Hs'.
  unfold records in Hs'. rewrite !List.length_map in Hs'. lia.
Qed.

Lemma blank_note_leaves_store_witness :
  store (exec (dispatch Hotkey) desk) = store desk /\
  ~ store_in_sync (exec (dispatch Hotkey) desk).
Proof.
  destruct (blank_note_leaves_store desk Hotkey eq_refl) as (_ & H2 & _ & H4).
  split; [exact H2 | apply H4; reflexivity].
Defined.

(** ** C10: the shape of the file *)

(** C10. [save_notes] writes a JSON array with one object per open
    note, in the order of the list, every object with exactly the keys
    text, x, y, width, height; in every session the file is either
    what it was at start-up or such an array, and the list is in
    creation order; a new note goes to the end of the list. *)
Theorem persisted_records_in_creation_order :
  (forall w, fst (save_notes w) = Ok tt /\
             store (exec save_notes w) = Some (Document (VList (records w))) /\
             Forall is_record (records w)) /\
  (forall f pl evs,
     creation_order (exec (session evs) (fresh_process f pl)) /\
     shaped_or f (exec (session evs) (fresh_process f pl))) /\
  (forall w v, creation_order w ->
     exists n, notes (exec (StickyNote_init v) w) = notes w ++ [n] /\
               nid n = next_id w).
Proof.
  split; [| split].
  - intros w. split; [reflexivity |]. split; [reflexivity | apply records_are_records].
  - intros f pl evs. split.
    + apply creation_order_session, creation_order_fresh.
    + apply shaped_session. left. reflexivity.
  - intros w v. apply StickyNote_init_appends.
Qed.

Lemma persisted_records_in_creation_order_witness :
  exists n, notes (exec (StickyNote_init (VStr "milk")) desk2) = notes desk2 ++ [n] /\
            nid n = 2%nat.
Proof.
  apply (proj2 (proj2 persisted_records_in_creation_order) desk2 (VStr "milk")).
  split; repeat constructor.
Defined.

(** * Further properties of the program *)

(** ** Loading one record *)

Lemma StickyNote_init_text_of v t w :
  Forall (fun m => nid m <> next_id w) (notes w) ->
  text_of v = Some t ->
  exists st,
  StickyNote_init v w =
  (Ok (next_id w),
   mkWorld (notes w ++ [mkNote (next_id w) t (fst (placement w (next_id w)))
                               (snd (placement w (next_id w))) 200 200
                               false false None None])
           (S (next_id w)) st (sticky_notes_app w) (clipboard w) (placement w)).
Proof.
  intros Hfresh Ht.
  assert (Hcase : v = VStr t \/ (truthy v = false /\ t = "")).
  { destruct v as [| ? | ? | ? | s | ? | ?];
      try (right; unfold text_of in Ht;
           match type of Ht with
           | (if ?c then _ else _) = _ =>
               destruct c eqn:E; [discriminate | injection Ht as <-; auto]
           end).
    left. simpl in Ht. injection Ht as <-. reflexivity. }
  destruct Hcase as [-> | [Hf ->]].
  - apply StickyNote_init_str, Hfresh.
  - eexists. apply StickyNote_init_blank; assumption.
Qed.

Lemma load_one_well_typed d v t a b c e w :
  Forall (fun m => nid m <> next_id w) (notes w) ->
  dict_get d "text" = Some v -> text_of v = Some t ->
  dict_get d "x" = Some (VInt a) -> dict_get d "y" = Some (VInt b) ->
  dict_get d "width" = Some (VInt c) -> dict_get d "height" = Some (VInt e) ->
  in_int a = true -> in_int b = true -> in_int c = true -> in_int e = true ->
  exists st,
    load_one (VDict d) w =
    (Ok tt, mkWorld (notes w ++ [loaded (placement w) (next_id w) t a b c e])
                    (S (next_id w)) st
                    (sticky_notes_app w) (clipboard w) (placement w)).
Proof.
  intros Hfresh Hv Ht Hx Hy Hw Hh Ia Ib Ic Ie.
  destruct (StickyNote_init_text_of v t w Hfresh Ht) as [st Hinit].
  exists st. unfold load_one, subscript.
  rewrite Hv, Hx, Hy, Hw, Hh.
  repeat (simpl lift; rewrite bind_ret).
  unfold QPoint_new. cbn [is_intlike andb]. unfold as_int. rewrite Ia, Ib.
  repeat (simpl lift; rewrite bind_ret).
  unfold QSize_new. cbn [is_intlike andb]. unfold as_int. rewrite Ic, Ie.
  repeat (simpl lift; rewrite bind_ret).
  unfold create_note_safe. rewrite (bind_ok _ _ _ _ _ Hinit).
  unfold QPoint_bool, QSize_bool, QWidget_move, QWidget_resize.
  cbn [px py sw sh]. rewrite Ia, Ib, Ic, Ie. cbn [andb].
  unfold loaded.
  destruct ((a =? 0) && (b =? 0)); destruct ((0 <=? c) && (0 <=? e));
    cbn [negb]; unfold bind, ret, modify_note, modify, set_notes;
    cbn [notes next_id store sticky_notes_app clipboard placement];
    repeat (rewrite update_note_last; [| assumption | reflexivity]);
    reflexivity.
Qed.

Lemma StickyNote_init_refused v w :
  text_of v = None -> StickyNote_init v w = (Raise TypeError, appended w).
Proof.
  intros Ht. unfold StickyNote_init.
  destruct v; simpl in Ht; try discriminate;
    match type of Ht with
    | (if ?c then _ else _) = _ => destruct c eqn:E; [| discriminate]
    end; simpl truthy; rewrite ?E; reflexivity.
Qed.

(** X3. A record is read through its five keys only: whatever other
    keys it has and in whatever order, a record whose text is a string
    of printable ASCII characters and line feeds, or any false value
    (null, false, 0, an empty list or object), and whose x, y, width
    and height are C integers loads normally and adds one note at the
    end of the list. The note has that text (empty for a false value);
    the saved position unless it is (0, 0), when it stays where the
    window system placed it; the saved size brought within the minimum
    and maximum size, unless a side is negative, when it keeps the
    initial 200 by 200. *)
Theorem load_one_builds_note d v t a b c e w :
  creation_order w ->
  dict_get d "text" = Some v -> text_of v = Some t -> kept_text t = true ->
  dict_get d "x" = Some (VInt a) -> dict_get d "y" = Some (VInt b) ->
  dict_get d "width" = Some (VInt c) -> dict_get d "height" = Some (VInt e) ->
  in_int a = true -> in_int b = true -> in_int c = true -> in_int e = true ->
  fst (load_one (VDict d) w) = Ok tt /\
  notes (exec (load_one (VDict d)) w) =
    notes w ++ [loaded (placement w) (next_id w) t a b c e].
Proof.
  intros Hw Hv Ht _ Hx Hy Hc He Ia Ib Ic Ie.
  destruct (load_one_well_typed d v t a b c e w (creation_order_fresh_id w Hw)
              Hv Ht Hx Hy Hc He Ia Ib Ic Ie) as [st H].
  unfold exec. rewrite H. split; reflexivity.
Qed.

Lemma load_one_builds_note_witness :
  notes (exec (load_one (VDict shuffled_record)) desk) =
  [memo; mkNote 1 "buy milk" 52 52 200 200 false false None None].
Proof.
  assert (Hw : creation_order desk) by (split; repeat constructor).
  exact (proj2 (load_one_builds_note shuffled_record (VStr "buy milk") "buy milk"
                  0 0 4000 (-60) desk Hw
                  eq_refl eq_refl eq_refl eq_refl eq_refl eq_refl eq_refl
                  eq_refl eq_refl eq_refl eq_refl)).
Defined.

(** X4. A record whose text is a true value that is not a string (a
    non-zero number, true, a non-empty list or object) makes
    [load_notes] raise [TypeError] from [setPlainText] inside
    [__init__]: by then the window is in the list, so the half-built
    note (empty text, Qt's initial geometry) stays in
    [StickyNote.notes]; the file is not touched. *)
Theorem load_one_refuses_text d v a b c e w :
  dict_get d "text" = Some v -> text_of v = None ->
  dict_get d "x" = Some (VInt a) -> dict_get d "y" = Some (VInt b) ->
  dict_get d "width" = Some (VInt c) -> dict_get d "height" = Some (VInt e) ->
  in_int a = true -> in_int b = true -> in_int c = true -> in_int e = true ->
  load_one (VDict d) w = (Raise TypeError, appended w).
Proof.
  intros Hv Ht Hx Hy Hc He Ia Ib Ic Ie.
  unfold load_one, subscript. rewrite Hv, Hx, Hy, Hc, He.
  repeat (simpl lift; rewrite bind_ret).
  unfold QPoint_new. cbn [is_intlike andb]. unfold as_int. rewrite Ia, Ib.
  repeat (simpl lift; rewrite bind_ret).
  unfold QSize_new. cbn [is_intlike andb]. unfold as_int. rewrite Ic, Ie.
  repeat (simpl lift; rewrite bind_ret).
  unfold create_note_safe. unfold bind at 1.
  rewrite (StickyNote_init_refused v w Ht). reflexivity.
Qed.

Lemma load_one_refuses_text_witness :
  load_one (VDict numbered_record) desk =
  (Raise TypeError,
   mkWorld [memo; mkNote 1 "" 0 0 640 480 false false None None] 2
           (store desk) true "" cascade).
Proof.
  exact (load_one_refuses_text numbered_record (VInt 7) 30 40 200 200 desk
           eq_refl eq_refl eq_refl eq_refl eq_refl eq_refl
           eq_refl eq_refl eq_refl eq_refl).
Defined.

(** ** Start-up on files without records *)

(** X5. Start-up creates no note and leaves the file alone when there
    is nothing to iterate: the file does not exist, or holds an empty
    array (also an empty object or an empty string). On any other JSON
    value that is not an array (null, a boolean, a number, a non-empty
    string or object) it raises [TypeError] before any note exists. *)
Theorem startup_without_array w :
  (store w = None -> StickyNotesApp_init w = (Ok tt, set_app true w)) /\
  (forall v, store w = Some (Document v) -> py_iter v = Ok [] ->
     StickyNotesApp_init w = (Ok tt, set_app true w)) /\
  (forall v, store w = Some (Document v) -> is_array v = false ->
     py_iter v <> Ok [] ->
     StickyNotesApp_init w = (Raise TypeError, set_app true w)).
Proof.
  split; [| split].
  - intros H. unfold StickyNotesApp_init, load_notes, bind, modify, get.
    cbn [store set_app]. rewrite H. reflexivity.
  - intros v H Hv. unfold StickyNotesApp_init, load_notes, bind, modify, get.
    cbn [store set_app]. rewrite H. simpl json_load. simpl lift. unfold ret at 1.
    rewrite Hv. reflexivity.
  - intros v H Ha Hv. unfold StickyNotesApp_init, load_notes.
    unfold bind at 1. unfold modify at 1. unfold bind at 1. unfold get at 1.
    cbn [store set_app]. rewrite H. simpl json_load. simpl lift. rewrite bind_ret.
    destruct v as [| ? | ? | ? | s | l | d]; try reflexivity.
    + destruct s as [| ch s]; [exfalso; apply Hv; reflexivity |]. reflexivity.
    + discriminate Ha.
    + destruct d as [| [k x0] d]; [exfalso; apply Hv; reflexivity |]. reflexivity.
Qed.

Lemma startup_without_array_witness :
  StickyNotesApp_init (fresh_process None cascade) =
    (Ok tt, set_app true (fresh_process None cascade)) /\
  StickyNotesApp_init
    (fresh_process (Some (Document (VDict [("text", VStr "memo")]))) cascade) =
    (Raise TypeError,
     set_app true
       (fresh_process (Some (Document (VDict [("text", VStr "memo")]))) cascade)).
Proof.
  split.
  - exact (proj1 (startup_without_array (fresh_process None cascade)) eq_refl).
  - apply (proj2 (proj2 (startup_without_array
             (fresh_process (Some (Document (VDict [("text", VStr "memo")]))) cascade)))
             (VDict [("text", VStr "memo")])).
    + reflexivity.
    + reflexivity.
    + discriminate.
Defined.

(** ** The file during loading *)

Lemma for_each_app {A} (body : A -> M unit) (l1 l2 : list A) w :
  for_each (l1 ++ l2) body w = (for_each l1 body ;; for_each l2 body) w.
Proof.
  revert w. induction l1 as [| a r IH]; intros w; simpl.
  - reflexivity.
  - unfold bind. specialize (IH (snd (body a w))). unfold bind in IH.
    destruct (body a w) as [[[] | e] w1]; simpl in *.
    + exact IH.
    + reflexivity.
Qed.

Lemma load_one_missing_key_eq d k w :
  In k five_keys -> dict_get d k = None ->
  exists e, load_one (VDict d) w = (Raise e, w).
Proof.
  intros Hk Hd. unfold load_one, subscript.
  destruct (dict_get d "text") eqn:Et; [| eexists; reflexivity].
  simpl lift. rewrite bind_ret.
  destruct (dict_get d "x") eqn:Ex; [| eexists; reflexivity].
  simpl lift. rewrite bind_ret.
  destruct (dict_get d "y") eqn:Ey; [| eexists; reflexivity].
  simpl lift. rewrite bind_ret.
  destruct (QPoint_new v0 v1); [| eexists; reflexivity].
  simpl lift. rewrite bind_ret.
  destruct (dict_get d "width") eqn:Ew; [| eexists; reflexivity].
  simpl lift. rewrite bind_ret.
  destruct (dict_get d "height") eqn:Eh; [| eexists; reflexivity].
  exfalso. simpl in Hk.
  destruct Hk as [<- | [<- | [<- | [<- | [<- | []]]]]]; congruence.
Qed.

Lemma reloaded_app pl ns1 : forall k ns2,
  reloaded pl k (ns1 ++ ns2) =
  reloaded pl k ns1 ++ reloaded pl (k + List.length ns1) ns2.
Proof.
  induction ns1 as [| n r IH]; intros k ns2; simpl.
  - rewrite Nat.add_0_r. reflexivity.
  - rewrite IH. rewrite Nat.add_succ_r. reflexivity.
Qed.

Lemma reloaded_ids pl ns : forall k,
  Forall (fun m => (nid m < k + List.length ns)%nat) (reloaded pl k ns).
Proof.
  induction ns as [| n r IH]; intros k; simpl.
  - constructor.
  - constructor; [simpl; lia |].
    eapply Forall_impl; [| apply (IH (S k))]. simpl. intros; lia.
Qed.

Lemma load_one_record_text n w :
  Forall (fun m => nid m <> next_id w) (notes w) ->
  geometry_ok n -> text n <> "" -> sticky_notes_app w = true ->
  load_one (note_record n) w =
  (Ok tt, mkWorld (notes w ++ [restored (placement w) (next_id w) n])
                  (S (next_id w))
                  (Some (Document (VList (map note_record (notes w) ++
                                          [unplaced_record (text n)]))))
                  true (clipboard w) (placement w)).
Proof.
  intros Hfresh (Hx & Hy & Hw & Hh) Ht Happ.
  pose proof (StickyNote_init_text (text n) w Hfresh Ht) as Hinit.
  rewrite Happ in Hinit.
  unfold load_one.
  repeat (simpl subscript; simpl lift; rewrite bind_ret).
  unfold QPoint_new, QSize_new. simpl is_intlike. simpl andb. cbv iota.
  unfold as_int. rewrite Hx, Hy. simpl lift. rewrite bind_ret.
  repeat (simpl subscript; simpl lift; rewrite bind_ret).
  rewrite (size_in_int _ Hw), (size_in_int _ Hh). simpl lift. rewrite bind_ret.
  unfold create_note_safe.
  rewrite (bind_ok _ _ _ _ _ Hinit).
  unfold QPoint_bool, QSize_bool, QWidget_move, QWidget_resize.
  cbn [px py sw sh].
  rewrite Hx, Hy, (size_in_int _ Hw), (size_in_int _ Hh). cbn [andb].
  replace ((0 <=? width n) && (0 <=? height n)) with true
    by (symmetry; apply andb_true_intro; split; apply Z.leb_le; lia).
  unfold restored. fold (at_origin n). rewrite map_app.
  destruct (at_origin n); cbn [negb];
    unfold bind, ret, modify_note, modify, set_notes;
    cbn [notes next_id store sticky_notes_app clipboard placement];
    repeat (rewrite update_note_last; [| assumption | reflexivity]);
    unfold set_size, set_pos, minimumWidth, minimumHeight;
    cbn [nid text x y width height _dragging _resizing _start_pos _start_size];
    rewrite (bounded_id _ Hw), (bounded_id _ Hh); reflexivity.
Qed.

Lemma load_prefix pl pre n rest f :
  Forall geometry_ok (pre ++ [n]) -> text n <> "" ->
  for_each (map note_record (pre ++ [n]) ++ rest) load_one
           (set_app true (fresh_process f pl)) =
  for_each rest load_one (after_loading pl pre n).
Proof.
  intros Hg Ht. apply Forall_app in Hg. destruct Hg as [Hpre Hn].
  inversion Hn as [| ? ? Hn' _]; subst.
  rewrite map_app, <- app_assoc, for_each_app.
  destruct (for_each_reload pre (set_app true (fresh_process f pl))) as [st H];
    [constructor | exact Hpre |].
  rewrite (bind_ok _ _ _ _ _ H). simpl app. simpl for_each.
  cbn [notes next_id sticky_notes_app clipboard placement set_app fresh_process].
  simpl app.
  assert (Hfresh : Forall (fun m => nid m <> List.length pre) (reloaded pl 0 pre)).
  { eapply Forall_impl; [| apply (reloaded_ids pl pre 0)]. simpl. intros; lia. }
  match goal with |- bind (load_one _) _ ?w1 = _ =>
    pose proof (load_one_record_text n w1 Hfresh Hn' Ht eq_refl) as H1 end.
  cbn [notes next_id sticky_notes_app clipboard placement] in H1.
  rewrite (bind_ok _ _ _ _ _ H1).
  unfold after_loading. rewrite reloaded_app. reflexivity.
Qed.

Lemma startup_on_records pl l :
  StickyNotesApp_init (fresh_process (Some (Document (VList l))) pl) =
  for_each l load_one (set_app true (fresh_process (Some (Document (VList l))) pl)).
Proof.
  unfold StickyNotesApp_init, load_notes.
  unfold bind at 1. unfold modify at 1. unfold bind at 1. unfold get at 1.
  cbn [store set_app fresh_process]. simpl json_load. simpl lift.
  rewrite bind_ret. simpl py_iter. simpl lift. rewrite bind_ret. reflexivity.
Qed.

(** X2. Loading rewrites the file: [setPlainText] in [__init__] fires
    [textChanged], hence [save_notes], before the window has been
    resized or moved. After start-up on the saved records of notes the
    last of which has text, the notes in memory are the reloaded ones,
    and the file holds the records of the notes before the last
    followed by the last note's text with Qt's initial geometry
    (0, 0, 640, 480). *)
Theorem startup_rewrites_store pl pre n :
  Forall geometry_ok (pre ++ [n]) -> text n <> "" ->
  let r := StickyNotesApp_init
             (fresh_process (Some (Document (VList (map note_record (pre ++ [n]))))) pl) in
  fst r = Ok tt /\
  notes (snd r) = reloaded pl 0 (pre ++ [n]) /\
  store (snd r) =
    Some (Document (VList (map note_record (reloaded pl 0 pre) ++
                           [unplaced_record (text n)]))).
Proof.
  intros Hg Ht. cbv zeta. rewrite startup_on_records.
  pose proof (load_prefix pl pre n []
                (Some (Document (VList (map note_record (pre ++ [n]))))) Hg Ht) as H.
  rewrite app_nil_r in H. rewrite H. repeat split.
Qed.

Lemma startup_leaves_initial_geometry_in_store :
  let r := StickyNotesApp_init (fresh_process (store desk) cascade) in
  fst r = Ok tt /\
  records (snd r) = records desk /\
  store (snd r) =
    Some (Document (VList
      [VDict [("text", VStr "memo"); ("x", VInt 0); ("y", VInt 0);
              ("width", VInt 640); ("height", VInt 480)]])).
Proof.
  assert (Hg : Forall geometry_ok ([] ++ [memo])) by geometry.
  assert (Ht : text memo <> "") by discriminate.
  destruct (startup_rewrites_store cascade [] memo Hg Ht) as (H1 & H2 & H3).
  cbv zeta. split; [exact H1 |]. split; [| exact H3].
  unfold records.
  change (store desk) with (Some (Document (VList (map note_record ([] ++ [memo]))))).
  rewrite H2. reflexivity.
Defined.

(** X6. A failed load has already rewritten the file. When the records
    of notes the last of which has text are followed by a record that
    lacks a key, start-up raises, the notes before the bad record are
    open, and the file no longer holds the bad record nor anything
    after it: it holds the records of the notes loaded so far, the last
    of them with Qt's initial geometry. *)
Theorem failed_load_has_rewritten_store pl pre n d k rest :
  Forall geometry_ok (pre ++ [n]) -> text n <> "" ->
  In k five_keys -> dict_get d k = None ->
  let r := StickyNotesApp_init
             (fresh_process
                (Some (Document (VList (map note_record (pre ++ [n]) ++ VDict d :: rest))))
                pl) in
  raises StickyNotesApp_init
    (fresh_process
       (Some (Document (VList (map note_record (pre ++ [n]) ++ VDict d :: rest)))) pl) /\
  notes (snd r) = reloaded pl 0 (pre ++ [n]) /\
  store (snd r) =
    Some (Document (VList (map note_record (reloaded pl 0 pre) ++
                           [unplaced_record (text n)]))).
Proof.
  intros Hg Ht Hk Hd. cbv zeta. unfold raises. rewrite startup_on_records.
  rewrite (load_prefix pl pre n (VDict d :: rest) _ Hg Ht).
  simpl for_each. unfold bind.
  destruct (load_one_missing_key_eq d k (after_loading pl pre n) Hk Hd) as [e He].
  rewrite He. split; [exists e; reflexivity |]. split; reflexivity.
Qed.

Lemma failed_load_has_rewritten_store_witness :
  store (snd (StickyNotesApp_init
                (fresh_process
                   (Some (Document (VList [note_record memo; broken_record;
                                           note_record todo])))
                   cascade))) =
  Some (Document (VList [unplaced_record "memo"])).
Proof.
  assert (Hg : Forall geometry_ok ([] ++ [memo])) by geometry.
  assert (Ht : text memo <> "") by discriminate.
  assert (Hk : In "height" five_keys) by (simpl; auto 6).
  exact (proj2 (proj2 (failed_load_has_rewritten_store cascade [] memo
                         [("text", VStr "memo"); ("x", VInt 300); ("y", VInt 300);
                          ("width", VInt 200)]
                         "height" [note_record todo] Hg Ht Hk eq_refl))).
Defined.

(** ** Invariants of every open note

    A property of a note that the new window has and that every
    attribute update of the program keeps holds of every open note
    throughout. *)
Section NoteInvariant.

Variable Q : StickyNote -> Prop.

Hypothesis Q_new : forall i, Q (new_window i).
Hypothesis Q_pos : forall a b n, Q n -> Q (set_pos a b n).
Hypothesis Q_size : forall a b n, Q n -> Q (set_size a b n).
Hypothesis Q_text : forall s n, Q n -> Q (set_text s n).
Hypothesis Q_clear : forall n, Q n -> Q (set_gesture false false None None n).
Hypothesis Q_resize : forall pos n,
  Q n -> Q (set_gesture (_dragging n) true (Some pos) (Some (width n, height n)) n).
Hypothesis Q_drag : forall pos n,
  Q n -> Q (set_gesture true (_resizing n) (Some pos) (_start_size n) n).

Lemma every_modify_note self f :
  (forall n, Q n -> Q (f n)) -> preserves (every_note Q) (modify_note self f).
Proof.
  intros Hf w H. unfold every_note, exec. simpl. unfold update_note.
  apply Forall_map. eapply Forall_impl; [| exact H]. intros n Hn. simpl.
  destruct (Nat.eqb (nid n) self); [apply Hf, Hn | exact Hn].
Qed.

Lemma every_move self a b : preserves (every_note Q) (QWidget_move self a b).
Proof.
  unfold QWidget_move. pres_step; [| pres_step].
  apply every_modify_note, Q_pos.
Qed.

Lemma every_resize self a b : preserves (every_note Q) (QWidget_resize self a b).
Proof.
  unfold QWidget_resize. pres_step; [| pres_step].
  apply every_modify_note. intros n. apply Q_size.
Qed.

Lemma every_save_notes : preserves (every_note Q) save_notes.
Proof. intros w H. exact H. Qed.

Lemma every_text_changed self s : preserves (every_note Q) (text_changed self s).
Proof.
  unfold text_changed, on_text_changed. repeat pres_step.
  - apply every_modify_note, Q_text.
  - apply every_save_notes.
Qed.

Lemma every_StickyNote_init v : preserves (every_note Q) (StickyNote_init v).
Proof.
  unfold StickyNote_init, setPlainText, QWidget_show. repeat pres_step.
  - apply preserves_modify. intros w H. unfold every_note. simpl.
    apply Forall_app. split; [exact H | constructor; [apply Q_new | constructor]].
  - apply every_text_changed.
  - apply every_resize.
  - apply every_modify_note, Q_clear.
  - apply every_modify_note, Q_pos.
Qed.

Lemma every_create_note_safe t pos size :
  preserves (every_note Q) (create_note_safe t pos size).
Proof.
  unfold create_note_safe. repeat pres_step.
  - apply every_StickyNote_init.
  - apply every_move.
  - apply every_resize.
Qed.

Lemma every_load_notes : preserves (every_note Q) load_notes.
Proof.
  unfold load_notes, load_one. repeat pres_step. apply every_create_note_safe.
Qed.

Lemma every_delete_note self : preserves (every_note Q) (delete_note self).
Proof.
  unfold delete_note. apply preserves_get_bind. intros w H.
  destruct (list_remove self (notes w)) as [l |] eqn:E; [| exact H].
  apply list_remove_split in E. destruct E as (a & n & b & E & -> & _ & _).
  unfold exec, bind, modify, get. simpl.
  assert (Hl : Forall Q (a ++ b)).
  { unfold every_note in H. rewrite E in H. apply Forall_app in H.
    destruct H as [Ha Hb]. inversion Hb; subst. apply Forall_app. split; assumption. }
  destruct (sticky_notes_app w); exact Hl.
Qed.

Lemma every_dispatch ev : preserves (every_note Q) (dispatch ev).
Proof.
  destruct ev; simpl.
  - apply every_create_note_safe.
  - apply every_create_note_safe.
  - apply every_save_notes.
  - pres_step. apply every_text_changed.
  - pres_step. unfold create_new_note. repeat pres_step.
    + apply every_StickyNote_init.
    + apply every_move.
  - pres_step. apply every_delete_note.
  - unfold mousePressEvent, copy_with_feedback. repeat pres_step.
    + apply preserves_modify. intros w H. exact H.
    + apply every_modify_note. intros m. apply Q_resize.
    + apply every_modify_note. intros m. apply Q_drag.
  - unfold mouseMoveEvent. pres_step. pres_step; [| pres_step].
    + destruct (_start_pos n), (_start_size n); try apply preserves_raise.
      apply every_resize.
    + destruct (_start_pos n); [apply every_move | apply preserves_ret].
    + apply preserves_ret.
  - apply every_modify_note, Q_clear.
Qed.

Lemma every_event_loop evs : preserves (every_note Q) (event_loop evs).
Proof.
  induction evs as [| ev r IH]; simpl.
  - apply preserves_ret.
  - destruct ev; try (apply preserves_bind; [apply every_dispatch | intros _; exact IH]).
    apply (every_dispatch TrayQuit).
Qed.

Lemma every_StickyNotesApp_init : preserves (every_note Q) StickyNotesApp_init.
Proof.
  unfold StickyNotesApp_init. pres_step.
  - apply preserves_modify. intros w H. exact H.
  - apply every_load_notes.
Qed.

End NoteInvariant.

Lemma gesture_ok_dispatch ev : preserves (every_note gesture_ok) (dispatch ev).
Proof.
  apply every_dispatch; unfold gesture_ok; simpl; auto; try discriminate.
Qed.

Lemma gesture_ok_startup : preserves (every_note gesture_ok) StickyNotesApp_init.
Proof.
  apply every_StickyNotesApp_init; unfold gesture_ok; simpl; auto; try discriminate.
Qed.

(** ** What the handlers can raise *)

Lemma find_note_in self l n :
  find_note self l = Some n -> In n l /\ nid n = self.
Proof.
  unfold find_note. intros H. apply find_some in H. destruct H as [H1 H2].
  split; [exact H1 | apply Nat.eqb_eq, H2].
Qed.

Lemma move_only_overflow self a b w : only_overflow (fst (QWidget_move self a b w)).
Proof.
  unfold QWidget_move. destruct (in_int a && in_int b); [left | right]; reflexivity.
Qed.

Lemma resize_only_overflow self a b w : only_overflow (fst (QWidget_resize self a b w)).
Proof.
  unfold QWidget_resize. destruct (in_int a && in_int b); [left | right]; reflexivity.
Qed.

Lemma create_new_note_only_overflow w : only_overflow (fst (create_new_note w)).
Proof.
  unfold create_new_note, StickyNote_init. simpl truthy. cbv iota.
  unfold bind, get, modify, ret, QWidget_resize, QWidget_show, modify_note,
         bind, get, modify. simpl.
  match goal with |- context [(1 <? ?k)%nat] => destruct (1 <? k)%nat end;
    [| left; reflexivity].
  match goal with |- context [second_last ?l] => destruct (second_last l) end;
    [apply move_only_overflow | left; reflexivity].
Qed.

Lemma delete_note_open self n w :
  find_note self (notes w) = Some n -> fst (delete_note self w) = Ok tt.
Proof.
  intros Hf. apply find_note_in in Hf. destruct Hf as [Hin Hn].
  destruct (list_remove_found self (notes w) n Hin Hn) as [l Hl].
  unfold delete_note, bind, get. rewrite Hl. simpl.
  destruct (sticky_notes_app w); reflexivity.
Qed.

Lemma dispatch_only_overflow ev w :
  every_note gesture_ok w -> only_overflow (fst (dispatch ev w)).
Proof.
  intros Hw. destruct ev; simpl dispatch.
  - left. apply create_note_safe_blank. reflexivity.
  - left. apply create_note_safe_blank. reflexivity.
  - left. reflexivity.
  - left. unfold on. destruct (find_note self (notes w)); [| reflexivity].
    unfold text_changed, on_text_changed, bind, modify_note, modify, get. simpl.
    destruct (sticky_notes_app w); reflexivity.
  - unfold on. destruct (find_note self (notes w)); [| left; reflexivity].
    apply create_new_note_only_overflow.
  - left. unfold on. destruct (find_note self (notes w)) as [n |] eqn:Hf;
      [| reflexivity].
    apply (delete_note_open self n w Hf).
  - left. unfold mousePressEvent, on.
    destruct (find_note self (notes w)) as [n |] eqn:Hf; [| reflexivity].
    destruct (is_LeftButton (button e)); [| reflexivity].
    destruct (is_ControlModifier (modifiers e)).
    + unfold copy_with_feedback, on. rewrite Hf. reflexivity.
    + destruct (in_corner n (position e)); reflexivity.
  - unfold mouseMoveEvent, on.
    destruct (find_note self (notes w)) as [n |] eqn:Hf; [| left; reflexivity].
    apply find_note_in in Hf. destruct Hf as [Hin _].
    unfold every_note in Hw. rewrite Forall_forall in Hw. specialize (Hw n Hin).
    destruct (_resizing n) eqn:Hr; simpl andb.
    + destruct (_start_pos n) as [p |]; simpl is_some; cbv iota.
      * destruct (_start_size n) as [ss |] eqn:Hs.
        -- apply resize_only_overflow.
        -- exfalso. apply (Hw Hr Hs).
      * destruct (_dragging n); simpl; left; reflexivity.
    + destruct (_dragging n); simpl andb.
      * destruct (_start_pos n) as [p |]; simpl is_some; cbv iota.
        -- apply move_only_overflow.
        -- left. reflexivity.
      * left. reflexivity.
  - left. reflexivity.
Qed.

Lemma event_loop_only_overflow evs : forall w,
  every_note gesture_ok w -> only_overflow (fst (event_loop evs w)).
Proof.
  induction evs as [| ev r IH]; intros w Hw.
  - left. reflexivity.
  - assert (Hstep : only_overflow (fst ((dispatch ev ;; event_loop r) w))).
    { pose proof (dispatch_only_overflow ev w Hw) as Hd.
      pose proof (gesture_ok_dispatch ev w Hw) as Hp.
      unfold bind, exec in *. destruct (dispatch ev w) as [[[] | e] w1]; simpl in *.
      - apply IH, Hp.
      - exact Hd. }
    destruct ev; try exact Hstep.
    apply (dispatch_only_overflow TrayQuit w Hw).
Qed.

(** X7. While every note in a resize has its start size, which every
    handler keeps and which holds after start-up, an event handler
    either returns or raises [OverflowError] from [move] or [resize]:
    [delete_note] never meets [ValueError] on an open note and
    [mouseMoveEvent] never reads a missing [_start_size]. So a session
    whose start-up returned can only end in [OverflowError]. *)
Theorem handlers_raise_only_overflow :
  (forall w ev, every_note gesture_ok w ->
     only_overflow (fst (dispatch ev w)) /\
     every_note gesture_ok (exec (dispatch ev) w)) /\
  (forall evs w, every_note gesture_ok w -> only_overflow (fst (event_loop evs w))) /\
  (forall f pl evs,
     fst (StickyNotesApp_init (fresh_process f pl)) = Ok tt ->
     only_overflow (fst (session evs (fresh_process f pl)))).
Proof.
  split; [| split].
  - intros w ev Hw. split.
    + apply dispatch_only_overflow, Hw.
    + apply gesture_ok_dispatch, Hw.
  - intros evs w. apply event_loop_only_overflow.
  - intros f pl evs Hok. unfold session.
    pose proof (gesture_ok_startup (fresh_process f pl) (Forall_nil _)) as Hw.
    unfold exec in Hw. unfold bind.
    destruct (StickyNotesApp_init (fresh_process f pl)) as [[[] | e] w1];
      simpl in *.
    + apply event_loop_only_overflow, Hw.
    + discriminate Hok.
Qed.

Lemma handlers_raise_only_overflow_witness :
  only_overflow (fst (dispatch (MouseMove 0 (left_at 60 70)) pressed_desk)) /\
  only_overflow (fst (session milk_session (fresh_process (store desk2) cascade))).
Proof.
  split.
  - apply (proj1 handlers_raise_only_overflow).
    constructor; [intros H; discriminate H | constructor].
  - apply (proj2 (proj2 handlers_raise_only_overflow)). reflexivity.
Defined.

(** ** Gestures *)

(** X8. A drag, the cursor at whole pixels: on a note with no gesture
    in progress, a plain left press outside the corner at pixel
    [(a1, b1)] followed by a move to pixel [(a2, b2)] puts the note at
    its old position plus [(a2 - a1, b2 - b1)], when that is a position
    of C integers; width, height and text are unchanged. *)
Theorem drag_moves_by_cursor_delta w self n e1 e2 a1 b1 a2 b2 :
  find_note self (notes w) = Some n -> idle n ->
  plain_left e1 = true -> in_corner n (position e1) = false ->
  at_pixel e1 a1 b1 -> at_pixel e2 a2 b2 ->
  in_int (x n + (a2 - a1)) = true ->
  in_int (y n + (b2 - b1)) = true ->
  let w1 := exec (mousePressEvent self e1) w in
  fst (mousePressEvent self e1 w) = Ok tt /\
  fst (mouseMoveEvent self e2 w1) = Ok tt /\
  exists n',
    find_note self (notes (exec (mouseMoveEvent self e2) w1)) = Some n' /\
    x n' = x n + (a2 - a1) /\
    y n' = y n + (b2 - b1) /\
    width n' = width n /\ height n' = height n /\ text n' = text n.
Proof.
  intros Hf Hidle Hp Hc P1 P2 Hx Hy w1.
  destruct (drag_pixel w self n e1 e2 e2 a1 b1 a2 b2 Hf Hidle Hp Hc P1 P2 Hx Hy)
    as (H1 & H2 & H3 & _).
  split; [exact H1 |]. split; [exact H2 | exact H3].
Qed.

Lemma drag_moves_by_cursor_delta_witness :
  exists n',
    find_note 0 (notes (exec (mouseMoveEvent 0 (left_at 110 30))
                             (exec (mousePressEvent 0 (left_at 100 20)) desk))) = Some n' /\
    x n' = 310 /\ y n' = 310 /\ width n' = 200 /\ height n' = 200.
Proof.
  destruct (drag_moves_by_cursor_delta desk 0 memo (left_at 100 20) (left_at 110 30)
              100 20 110 30
              eq_refl (conj eq_refl eq_refl) eq_refl eq_refl
              (conj eq_refl (conj eq_refl eq_refl))
              (conj eq_refl (conj eq_refl eq_refl)) eq_refl eq_refl)
    as (_ & _ & n' & Hf & Hx & Hy & Hw & Hh & _).
  exists n'. repeat split; assumption.
Defined.

(** X9. A resize, the cursor at whole pixels: on a note with no gesture
    in progress, a plain left press in the corner at pixel [(a1, b1)]
    followed by a move to pixel [(a2, b2)] gives the note the width
    [max(width + a2 - a1, 100)] and the height
    [max(height + b2 - b1, 100)], each at most Qt's maximum; it is at
    least 100 by 100, and position and text are unchanged. The size
    depends on the start size and the current cursor only: an earlier
    move of the same gesture leaves no trace. *)
Theorem resize_follows_cursor w self n e1 e2 a1 b1 a2 b2 :
  find_note self (notes w) = Some n -> idle n ->
  plain_left e1 = true -> in_corner n (position e1) = true ->
  at_pixel e1 a1 b1 -> at_pixel e2 a2 b2 ->
  let w1 := exec (mousePressEvent self e1) w in
  let c := Z.max (width n + (a2 - a1)) 100 in
  let d := Z.max (height n + (b2 - b1)) 100 in
  in_int c = true -> in_int d = true ->
  fst (mouseMoveEvent self e2 w1) = Ok tt /\
  (exists n',
     find_note self (notes (exec (mouseMoveEvent self e2) w1)) = Some n' /\
     width n' = Z.min c QWIDGETSIZE_MAX /\ height n' = Z.min d QWIDGETSIZE_MAX /\
     100 <= width n' /\ 100 <= height n' /\
     x n' = x n /\ y n' = y n /\ text n' = text n) /\
  (forall e3 a3 b3,
     at_pixel e3 a3 b3 ->
     fst (mouseMoveEvent self e3 w1) = Ok tt ->
     notes (exec (mouseMoveEvent self e3) (exec (mouseMoveEvent self e2) w1)) =
     notes (exec (mouseMoveEvent self e3) w1)).
Proof.
  intros Hf Hidle Hp Hc P1 P2 w1 c d Hcw Hdh.
  destruct (resize_pixel w self n e1 e2 e2 a1 b1 a2 b2 Hf Hidle Hp Hc P1 P2 Hcw Hdh)
    as (_ & H2 & (n2 & Hf2 & Hw & Hh & Hx & Hy & Ht) & _ & _ & _ & H7).
  split; [exact H2 |]. split; [| exact H7].
  exists n2. split; [exact Hf2 |]. split; [exact Hw |]. split; [exact Hh |].
  split; [rewrite Hw; unfold QWIDGETSIZE_MAX; subst c; lia |].
  split; [rewrite Hh; unfold QWIDGETSIZE_MAX; subst d; lia |].
  split; [exact Hx |]. split; [exact Hy | exact Ht].
Qed.

Lemma resize_follows_cursor_witness :
  exists n',
    find_note 0 (notes (exec (mouseMoveEvent 0 (left_at 267 257))
                             (exec (mousePressEvent 0 (left_at 197 197)) desk))) = Some n' /\
    width n' = 270 /\ height n' = 260 /\ x n' = 300 /\ y n' = 300.
Proof.
  destruct (resize_follows_cursor desk 0 memo (left_at 197 197) (left_at 267 257)
              197 197 267 257
              eq_refl (conj eq_refl eq_refl) eq_refl eq_refl
              (conj eq_refl (conj eq_refl eq_refl))
              (conj eq_refl (conj eq_refl eq_refl)) eq_refl eq_refl)
    as (_ & (n' & Hf & Hw & Hh & _ & _ & Hx & Hy & _) & _).
  exists n'. repeat split; assumption.
Defined.

(** X10. A left press with Control alone held copies the note's text
    to the clipboard and changes nothing else: no note, not the file;
    and since it starts no gesture, a following mouse move changes
    nothing either. *)
Theorem control_click_copies_text w self n e :
  find_note self (notes w) = Some n ->
  is_LeftButton (button e) = true -> is_ControlModifier (modifiers e) = true ->
  mousePressEvent self e w = (Ok tt, set_clipboard (text n) w) /\
  (idle n -> forall e',
     mouseMoveEvent self e' (set_clipboard (text n) w) =
     (Ok tt, set_clipboard (text n) w)).
Proof.
  intros Hf Hl Hm. split.
  - unfold mousePressEvent, on. rewrite Hf, Hl, Hm.
    unfold copy_with_feedback, on. rewrite Hf. reflexivity.
  - intros [Hd Hr] e'. unfold mouseMoveEvent, on. cbn [notes set_clipboard].
    rewrite Hf, Hd, Hr. reflexivity.
Qed.

Lemma control_click_copies_text_witness :
  clipboard (exec (mousePressEvent 0
                     (mkMouse LeftButton control_only (inject_Z 50, inject_Z 50))) desk) =
  "memo".
Proof.
  unfold exec.
  rewrite (proj1 (control_click_copies_text desk 0 memo
                    (mkMouse LeftButton control_only (inject_Z 50, inject_Z 50))
                    eq_refl eq_refl eq_refl)).
  reflexivity.
Defined.

(** X13. The cursor [enterEvent] sets announces what a press will do:
    for a cursor entering at the place of a plain left press on a note
    with no gesture in progress, the diagonal resize cursor is set
    exactly when the press starts a resize, the arrow exactly when it
    starts a drag. *)
Theorem enter_cursor_announces_resize w self n e :
  find_note self (notes w) = Some n -> idle n -> plain_left e = true ->
  exists n',
    find_note self (notes (exec (mousePressEvent self e) w)) = Some n' /\
    (enterEvent n (position e) = SizeFDiagCursor <-> _resizing n' = true) /\
    (enterEvent n (position e) = ArrowCursor <-> _dragging n' = true).
Proof.
  intros Hf [Hd Hr] Hp. unfold enterEvent. fold (in_corner n (position e)).
  destruct (in_corner n (position e)) eqn:Hc.
  - unfold exec. rewrite (press_resize_world w self n e Hf Hp Hc).
    cbn [snd notes set_notes]. rewrite find_update_note by reflexivity.
    rewrite Hf. cbn [option_map]. eexists. split; [reflexivity |].
    cbn. rewrite Hd. split; split; intros H; try reflexivity; discriminate H.
  - unfold exec. rewrite (press_drag_world w self n e Hf Hp Hc).
    cbn [snd notes set_notes]. rewrite find_update_note by reflexivity.
    rewrite Hf. cbn [option_map]. eexists. split; [reflexivity |].
    cbn. rewrite Hr. split; split; intros H; try reflexivity; discriminate H.
Qed.

Lemma enter_cursor_announces_resize_witness :
  enterEvent memo (inject_Z 190, inject_Z 190) = SizeFDiagCursor /\
  exists n',
    find_note 0 (notes (exec (mousePressEvent 0 (left_at 190 190)) desk)) = Some n' /\
    _resizing n' = true.
Proof.
  destruct (enter_cursor_announces_resize desk 0 memo (left_at 190 190)
              eq_refl (conj eq_refl eq_refl) eq_refl) as (n' & Hf & [H _] & _).
  split; [reflexivity |]. exists n'. split; [exact Hf | apply H; reflexivity].
Defined.

(** ** Which events write the file *)

Lemma create_new_note_frames_store : frames store create_new_note.
Proof.
  apply frames_preserves. intro b.
  unfold create_new_note, StickyNote_init. simpl truthy. cbv iota.
  unfold QWidget_resize, QWidget_show, QWidget_move.
  repeat pres_step; try apply keeps_store_modify_note.
  apply preserves_modify. intros w H. exact H.
Qed.

(** X11. Only quitting, a text change and closing a note write the
    file: the hotkey, the tray's new note, the "+" button and the three
    mouse events leave it exactly as it was. *)
Theorem only_saving_events_write_store w ev :
  saves ev = false -> store (exec (dispatch ev) w) = store w.
Proof.
  intros Hev. destruct ev; try discriminate; simpl dispatch.
  - apply create_note_safe_blank. reflexivity.
  - apply create_note_safe_blank. reflexivity.
  - unfold exec, on. destruct (find_note self (notes w)); [| reflexivity].
    apply create_new_note_frames_store.
  - apply mouse_handlers_frame_store.
  - apply mouse_handlers_frame_store.
  - apply (proj2 (proj2 (mouse_handlers_frame_store self e))).
Qed.

Lemma only_saving_events_write_store_witness :
  store (exec (dispatch (ClickNew 0)) desk) = store desk.
Proof. exact (only_saving_events_write_store desk (ClickNew 0) eq_refl). Defined.

Lemma quit_ends_in_sync evs : forall w,
  fst (event_loop (evs ++ [TrayQuit]) w) = Ok tt ->
  store_in_sync (exec (event_loop (evs ++ [TrayQuit])) w).
Proof.
  induction evs as [| ev r IH]; intros w Hok.
  - reflexivity.
  - assert (Hstep : fst ((dispatch ev ;; event_loop (r ++ [TrayQuit])) w) = Ok tt ->
                    store_in_sync (exec (dispatch ev ;; event_loop (r ++ [TrayQuit])) w)).
    { unfold exec, bind. destruct (dispatch ev w) as [[[] | e] w1]; simpl.
      - apply IH.
      - discriminate. }
    destruct ev; try (apply Hstep, Hok).
    reflexivity.
Qed.

(** X12. Quit, then restart. When a session that ends with Quit from
    the tray returns, the file holds exactly the records of the open
    notes; and if those notes have geometries Qt can report and none
    is at (0, 0), the next start-up returns with notes that have the
    same records. *)
Theorem quit_then_restart w0 evs pl :
  fst (session (evs ++ [TrayQuit]) w0) = Ok tt ->
  let w := exec (session (evs ++ [TrayQuit])) w0 in
  store_in_sync w /\
  (Forall geometry_ok (notes w) ->
   Forall (fun n => at_origin n = false) (notes w) ->
   fst (StickyNotesApp_init (fresh_process (store w) pl)) = Ok tt /\
   records (snd (StickyNotesApp_init (fresh_process (store w) pl))) = records w).
Proof.
  intros Hok. cbv zeta.
  assert (Hs : store_in_sync (exec (session (evs ++ [TrayQuit])) w0)).
  { unfold session, exec, bind in *.
    destruct (StickyNotesApp_init w0) as [[[] | e] w1]; simpl in *.
    - apply quit_ends_in_sync, Hok.
    - discriminate Hok. }
  split; [exact Hs |].
  intros Hg Ho. unfold store_in_sync in Hs. rewrite Hs. unfold records.
  destruct (startup_reload (notes (exec (session (evs ++ [TrayQuit])) w0)) pl Hg)
    as [st H].
  rewrite H. split; [reflexivity |].
  cbn [snd notes]. apply reloaded_records, Ho.
Qed.

Lemma quit_then_restart_witness :
  records (snd (StickyNotesApp_init
                  (fresh_process
                     (store (exec (session (milk_session ++ [TrayQuit]))
                                  (fresh_process None cascade)))
                     cascade))) =
  [VDict [("text", VStr "milk"); ("x", VInt 36); ("y", VInt 46);
          ("width", VInt 200); ("height", VInt 200)]].
Proof.
  pose proof (quit_then_restart (fresh_process None cascade) milk_session cascade
                eq_refl) as H.
  cbv zeta in H. destruct H as [_ H]. apply H.
  - change (Forall geometry_ok [mkNote 0 "milk" 36 46 200 200 false false None None]).
    geometry.
  - change (Forall (fun n => at_origin n = false)
                   [mkNote 0 "milk" 36 46 200 200 false false None None]).
    repeat constructor.
Defined.

(** ** Closing a note: the edges *)

Lemma list_remove_absent self l :
  find_note self l = None -> list_remove self l = None.
Proof.
  unfold find_note. induction l as [| m r IH]; simpl; intros H.
  - reflexivity.
  - destruct (Nat.eqb (nid m) self); [discriminate |].
    rewrite (IH H). reflexivity.
Qed.

(** X14. [delete_note] on a note that is not in the list raises
    [ValueError] before anything is saved and changes nothing. Closing
    the only open note empties the list and leaves an empty array in
    the file (the file is not removed), from which the next start-up
    creates no note. *)
Theorem delete_note_edges :
  (forall w self, find_note self (notes w) = None ->
     delete_note self w = (Raise ValueError, w)) /\
  (forall w n pl, notes w = [n] -> sticky_notes_app w = true ->
     let w' := exec (delete_note (nid n)) w in
     notes w' = [] /\ store w' = Some (Document (VList [])) /\
     StickyNotesApp_init (fresh_process (store w') pl) =
       (Ok tt, set_app true (fresh_process (store w') pl))).
Proof.
  split.
  - intros w self H. unfold delete_note, bind, get.
    rewrite (list_remove_absent self _ H). reflexivity.
  - intros w n pl Hn Happ. cbv zeta.
    assert (H : delete_note (nid n) w =
                (Ok tt, mkWorld [] (next_id w) (Some (Document (VList []))) true
                                (clipboard w) (placement w))).
    { unfold delete_note, bind, get. rewrite Hn. simpl. rewrite Nat.eqb_refl.
      simpl. rewrite Happ. simpl. unfold set_store, set_notes. simpl.
      rewrite Happ. reflexivity. }
    unfold exec. rewrite H. cbn [snd notes store]. repeat split.
Qed.

Lemma delete_note_edges_witness :
  delete_note 5 desk = (Raise ValueError, desk) /\
  store (exec (delete_note 0) desk) = Some (Document (VList [])).
Proof.
  split.
  - exact (proj1 delete_note_edges desk 5%nat eq_refl).
  - exact (proj1 (proj2 (proj2 delete_note_edges desk memo cascade eq_refl eq_refl))).
Defined.
